(** * Songs API: the JSON-backed record store

    A shallow embedding of the two implementations of the song store,

    - [Minimal]: [api-python/main.py] (Flask handlers over a bare JSON file),
    - [Pro]: [api-python-profesional] ([models/song.py],
      [services/database.py] and the handlers of [app.py]),

    followed by the properties of the store that hold of them.

    Modelling conventions.
    - A Python [str] is the list of its code points, so that [len] and
      [str.strip] are those of Python.
    - A JSON object / Python [dict] with string keys is a [gmap string pyval].
      Values range over [None], [bool], [int], [str] and [datetime];
      floating-point numbers and nested containers as field values are
      outside the model.
    - The JSON text of a file is not modelled: a file holds a document or is
      unreadable as one.  A timestamp is a [str], its ISO-8601 text, in what
      [isoformat()] returns and in a file, and a [datetime] object in a
      [Song] and in what [Song.dict()] returns; [json.dump] encodes the
      first and raises a [TypeError] on the second.
    - The file system and the clock are the environment of a call ([env]):
      whether each file operation of the call goes through, the instant
      [datetime.now()] yields during the call, and the identifier [uuid4()]
      draws. *)

From Stdlib Require Import ZArith NArith Ascii String.
From stdpp Require Import gmap strings list.

Local Open Scope Z_scope.

(** ** Python values *)

(** A [str]: its code points. *)
Definition pystr : Type := list N.

(** The literal with the given (ASCII) spelling. *)
Definition pys (s : string) : pystr :=
  N_of_ascii <$> list_ascii_of_string s.

(** [c.isspace()] for a one-character string: the code points
    [str.strip()] removes. *)
Definition py_isspace (c : N) : bool :=
  ((9 <=? c) && (c <=? 13) || (28 <=? c) && (c <=? 32)
   || (c =? 133) || (c =? 160) || (c =? 5760)
   || (8192 <=? c) && (c <=? 8202)
   || (c =? 8232) || (c =? 8233) || (c =? 8239) || (c =? 8287)
   || (c =? 12288))%N.

Fixpoint lstrip (s : pystr) : pystr :=
  match s with
  | c :: s' => if py_isspace c then lstrip s' else s
  | [] => []
  end.

Definition rstrip (s : pystr) : pystr := reverse (lstrip (reverse s)).

(** [s.strip()] *)
Definition strip (s : pystr) : pystr := rstrip (lstrip s).

(** A naive [datetime], as [datetime.now()] yields it. *)
Record datetime := DateTime {
  dt_year : Z;
  dt_month : Z;
  dt_day : Z;
  dt_hour : Z;
  dt_minute : Z;
  dt_second : Z;
  dt_microsecond : Z
}.

Global Instance datetime_eq_dec : EqDecision datetime.
Proof. solve_decision. Defined.

Inductive pyval :=
  | VNone
  | VBool (b : bool)
  | VInt (z : Z)
  | VStr (s : pystr)
  | VDatetime (t : datetime).

Global Instance pyval_eq_dec : EqDecision pyval.
Proof. solve_decision. Defined.

(** A [dict] with string keys. *)
Abbreviation pydict := (gmap string pyval).

(** [n] in decimal, over [width] digits: the format [%0<width>d]. *)
Fixpoint zero_padded (width : nat) (n : Z) : pystr :=
  match width with
  | O => []
  | S width' => zero_padded width' (n / 10) ++ [Z.to_N (48 + n mod 10)]
  end.

(** The text of [t.isoformat()]: [YYYY-MM-DDTHH:MM:SS], followed by
    [.ffffff] when the microseconds are not 0. *)
Definition isoformat_text (t : datetime) : pystr :=
  zero_padded 4 (dt_year t) ++ pys "-" ++ zero_padded 2 (dt_month t)
  ++ pys "-" ++ zero_padded 2 (dt_day t) ++ pys "T"
  ++ zero_padded 2 (dt_hour t) ++ pys ":" ++ zero_padded 2 (dt_minute t)
  ++ pys ":" ++ zero_padded 2 (dt_second t)
  ++ (if bool_decide (dt_microsecond t = 0) then []
      else pys "." ++ zero_padded 6 (dt_microsecond t)).

(** [t.isoformat()]: a [str]. *)
Definition isoformat (t : datetime) : pyval := VStr (isoformat_text t).

(** What [json.dump] encodes: [None], a [bool], an [int] and a [str]; on a
    [datetime] it raises a [TypeError]. *)
Definition json_encodable (v : pyval) : bool :=
  match v with
  | VDatetime _ => false
  | _ => true
  end.

(** A [dict] all of whose values [json.dump] encodes. *)
Definition json_dict (d : pydict) : bool :=
  bool_decide (map_Forall (λ _ v, json_encodable v = true) d).

(** The integer a value is when [isinstance(v, int)] ([bool] is a subclass
    of [int]: [True == 1]). *)
Definition as_int (v : pyval) : option Z :=
  match v with
  | VInt z => Some z
  | VBool b => Some (if b then 1 else 0)
  | _ => None
  end.

(** [isinstance(v, int)] *)
Definition is_int (v : pyval) : bool := bool_decide (is_Some (as_int v)).

(** [v == n] for an [int] [n]. *)
Definition py_eq_int (v : pyval) (n : Z) : bool :=
  match as_int v with
  | Some z => bool_decide (z = n)
  | None => false
  end.

(** [d.get("id") == song_id]; a missing key gives [None], equal to no
    integer. *)
Definition id_matches (song_id : Z) (d : pydict) : bool :=
  match d !! "id" with
  | Some v => py_eq_int v song_id
  | None => false
  end.

(** [max(l, default=0)] on integers. *)
Definition max_default0 (l : list Z) : Z :=
  match l with
  | [] => 0
  | z :: l' => foldl Z.max z l'
  end.

(** ** The backing files *)

(** The whole-file container: [{"songs": [...], "metadata": {...}}]; [None]
    is an absent key. *)
Record document := Document {
  doc_songs : option (list pydict);
  doc_metadata : option pydict
}.

Global Instance document_eq_dec : EqDecision document.
Proof. solve_decision. Defined.

(** [data.get("songs", [])] *)
Definition get_songs_or_empty (data : document) : list pydict :=
  default [] (doc_songs data).

(** A document that [json.dump] encodes: its songs and its metadata hold
    no [datetime]. *)
Definition json_document (data : document) : bool :=
  forallb json_dict (get_songs_or_empty data)
  && default true (json_dict <$> doc_metadata data).

(** What a file holds: the JSON text of a document, or bytes that
    [json.load] rejects or that are not a JSON object. *)
Inductive file :=
  | FDoc (d : document)
  | FInvalid.

Global Instance file_eq_dec : EqDecision file.
Proof. solve_decision. Defined.

Record files := Files {
  db : option file;       (* DB_PATH / settings.DATABASE_PATH *)
  backup : option file;   (* settings.DATABASE_BACKUP_PATH *)
  tmp : option file       (* db_path.with_suffix('.tmp') *)
}.

Global Instance files_eq_dec : EqDecision files.
Proof. solve_decision. Defined.

(** The environment of one call. *)
Record env := Env {
  can_read : bool;      (* open(db, 'r') and the read go through *)
  can_backup : bool;    (* shutil.copy2(db, backup) goes through *)
  can_open_w : bool;    (* open(path, 'w') goes through *)
  can_dump : bool;      (* json.dump writes the whole text of what it encodes *)
  can_replace : bool;   (* temp_path.replace(db_path) goes through *)
  now : datetime;       (* datetime.now() *)
  uuid4 : pystr         (* str(uuid4()) *)
}.

(** A raised exception or a returned value. *)
Inductive result (E A : Type) :=
  | Ok (a : A)
  | Err (e : E).
Arguments Ok {E A} a.
Arguments Err {E A} e.

Global Instance result_eq_dec `{EqDecision E, EqDecision A} :
  EqDecision (result E A).
Proof. solve_decision. Defined.

(** [l[start:stop]] for [0 <= start], the only slices the handlers take. *)
Definition py_slice {A} (l : list A) (start stop : Z) : list A :=
  take (Z.to_nat (stop - start)) (drop (Z.to_nat start) l).

(** ** The minimal variant: [api-python/main.py] *)

Module Minimal.

(** The body of a JSON response: nothing, a song, or the list of songs. *)
Inductive body :=
  | NoData
  | SongData (s : pydict)
  | SongsData (l : list pydict).

Global Instance body_eq_dec : EqDecision body.
Proof. solve_decision. Defined.

(** [make_response(data, message, status)] and the [abort] pages, without
    the message text. *)
Record response := Response { status : Z; data : body }.

Global Instance response_eq_dec : EqDecision response.
Proof. solve_decision. Defined.

(** [write_data]: opens [DB_PATH] for writing, which truncates it, and
    dumps [data] as it is; an exception is printed and not raised. *)
Definition write_data (e : env) (f : files) (data : document) : files :=
  if can_open_w e then
    if can_dump e then Files (Some (FDoc data)) (backup f) (tmp f)
    else Files (Some FInvalid) (backup f) (tmp f)
  else f.

(** The [data] the handlers hold: [{"songs": songs}]. *)
Definition songs_only (songs : list pydict) : document :=
  Document (Some songs) None.

Definition ensure_db_exists (e : env) (f : files) : files :=
  match db f with
  | None => write_data e f (songs_only [])
  | Some _ => f
  end.

(** [read_data]: the list under ["songs"]; any failure gives the empty
    list. *)
Definition read_data (e : env) (f : files) : files * list pydict :=
  let f1 := ensure_db_exists e f in
  match db f1 with
  | None => (f1, [])
  | Some c =>
      if can_read e then
        match c with
        | FDoc d => (f1, get_songs_or_empty d)
        | FInvalid => (f1, [])
        end
      else (f1, [])
  end.

Definition get_all_songs (e : env) (f : files) : files * response :=
  let '(f1, songs) := read_data e f in
  (f1, Response 200 (SongsData songs)).

Definition get_song (e : env) (f : files) (song_id : Z) : files * response :=
  let '(f1, songs) := read_data e f in
  match List.find (id_matches song_id) songs with
  | None => (f1, Response 404 NoData)
  | Some s => (f1, Response 200 (SongData s))
  end.

(** [[s.get("id", 0) for s in songs if isinstance(s.get("id", None), int)]] *)
Definition existing_ids (songs : list pydict) : list Z :=
  omap (fun s : pydict => s !! "id" ≫= as_int) songs.

(** [(max(existing_ids) + 1) if existing_ids else 1] *)
Definition new_id (songs : list pydict) : Z :=
  match existing_ids songs with
  | [] => 1
  | z :: l => foldl Z.max z l + 1
  end.

(** [add_song]; the request body is [None] when it is not JSON. *)
Definition add_song (e : env) (f : files) (body : option pydict)
  : files * response :=
  match body with
  | None => (f, Response 400 NoData)
  | Some body =>
      if bool_decide (body = ∅) then (f, Response 400 NoData)
      else if bool_decide (body !! "titulo" = None ∨ body !! "artista" = None)
      then (f, Response 400 NoData)
      else
        let '(f1, songs) := read_data e f in
        (* new_song = {"id": new_id}; new_song.update(body) *)
        let new_song : pydict := body ∪ {[ "id" := VInt (new_id songs) ]} in
        let f2 := write_data e f1 (songs_only (songs ++ [new_song])) in
        (f2, Response 201 (SongData new_song))
  end.

(** The first index whose record matches, with the record. *)
Definition find_song (song_id : Z) (songs : list pydict)
  : option (nat * pydict) :=
  list_find (fun s => id_matches song_id s = true) songs.

Definition update_song (e : env) (f : files) (song_id : Z)
    (body : option pydict) : files * response :=
  match body with
  | None => (f, Response 400 NoData)
  | Some body =>
      let '(f1, songs) := read_data e f in
      match find_song song_id songs with
      | Some (i, s) =>
          (* body.pop("id", None); updated = {**s, **body} *)
          let updated : pydict := delete "id" body ∪ s in
          let f2 := write_data e f1 (songs_only (<[i := updated]> songs)) in
          (f2, Response 200 (SongData updated))
      | None => (f1, Response 404 NoData)
      end
  end.

Definition delete_song (e : env) (f : files) (song_id : Z)
  : files * response :=
  let '(f1, songs) := read_data e f in
  if negb (existsb (id_matches song_id) songs) then (f1, Response 404 NoData)
  else
    let f2 :=
      write_data e f1
        (songs_only (filter (fun s => id_matches song_id s = false) songs)) in
    (f2, Response 200 NoData).

End Minimal.

(** ** The professional variant: [api-python-profesional] *)

Module Pro.

(** What the service takes from its libraries and settings.  pydantic (v1)
    coerces a value of another type where it can ([int("1975")],
    [str(7)], a number read as a Unix time); those conversions are the
    library's and enter here as given. *)
Record runtime := Runtime {
  APP_VERSION : pystr;                         (* settings.APP_VERSION *)
  current_year : Z;                            (* datetime.now().year, at import *)
  coerce_str : pyval → option pystr;           (* str_validator off a non-str *)
  coerce_int : pyval → option Z;               (* int_validator off a non-int *)
  coerce_datetime : pyval → option datetime    (* parse_datetime off a non-datetime *)
}.

(** *** [models/song.py] *)

(** The kinds of error a pydantic [ValidationError] lists. *)
Inductive error_type :=
  | value_error_missing                (* field required *)
  | type_error_none_not_allowed        (* none is not an allowed value *)
  | type_error_str
  | type_error_integer
  | type_error_datetime
  | value_error_any_str_min_length
  | value_error_any_str_max_length
  | value_error_number_not_ge
  | value_error_number_not_le
  | value_error_empty_after_strip      (* ValueError of no_empty_after_strip *)
  | value_error_at_least_one_field.    (* ValueError of at_least_one_field *)

Global Instance error_type_eq_dec : EqDecision error_type.
Proof. solve_decision. Defined.

(** A pydantic [ValidationError]: the failing locations with their kinds,
    in field order; ["__root__"] is the location of a root validator. *)
Definition ValidationError : Type := list (string * error_type).

Record SongCreate := mkSongCreate {
  sc_titulo : pystr;
  sc_artista : pystr;
  sc_album : option pystr;
  sc_año : option Z
}.

Global Instance SongCreate_eq_dec : EqDecision SongCreate.
Proof. solve_decision. Defined.

(** A field of [SongUpdate]: left out of the payload, or set (to [None]
    or to a value). *)
Inductive field (A : Type) :=
  | Unset
  | Set_ (v : option A).
Arguments Unset {A}.
Arguments Set_ {A} v.

Global Instance field_eq_dec `{EqDecision A} : EqDecision (field A).
Proof. solve_decision. Defined.

Record SongUpdate := mkSongUpdate {
  su_titulo : field pystr;
  su_artista : field pystr;
  su_album : field pystr;
  su_año : field Z
}.

Global Instance SongUpdate_eq_dec : EqDecision SongUpdate.
Proof. solve_decision. Defined.

Record Song := mkSong {
  titulo : pystr;
  artista : pystr;
  album : option pystr;
  año : option Z;
  song_id : Z;
  uuid : pystr;
  created_at : datetime;
  updated_at : datetime
}.

Global Instance Song_eq_dec : EqDecision Song.
Proof. solve_decision. Defined.

Section Models.
Variable R : runtime.

Definition str_validator (v : pyval) : option pystr :=
  match v with
  | VStr s => Some s
  | _ => coerce_str R v
  end.

Definition int_validator (v : pyval) : option Z :=
  match v with
  | VInt z => Some z
  | _ => coerce_int R v
  end.

Definition datetime_validator (v : pyval) : option datetime :=
  match v with
  | VDatetime t => Some t
  | _ => coerce_datetime R v
  end.

(** The length bounds of [Field(min_length=..., max_length=...)]. *)
Definition constr_length_validator (min_length max_length : nat)
    (s : pystr) : result error_type pystr :=
  if (length s <? min_length)%nat then Err value_error_any_str_min_length
  else if (max_length <? length s)%nat then Err value_error_any_str_max_length
  else Ok s.

(** The bounds of [Field(ge=1800, le=datetime.now().year)]. *)
Definition number_size_validator (z : Z) : result error_type Z :=
  if bool_decide (1800 ≤ z) then
    if bool_decide (z ≤ current_year R) then Ok z
    else Err value_error_number_not_le
  else Err value_error_number_not_ge.

(** [@validator('titulo', 'artista') strip_whitespace] *)
Definition strip_whitespace (s : pystr) : pystr := strip s.

(** [@validator('titulo', 'artista') no_empty_after_strip] *)
Definition no_empty_after_strip (s : pystr) : result error_type pystr :=
  match s with
  | [] => Err value_error_empty_after_strip
  | _ => Ok s
  end.

(** [titulo] and [artista] of [SongBase]: a required [str] with
    [min_length=1] and the given [max_length].  pydantic runs the checks
    of the declared type, the length bounds among them, on the value as
    given, and the [@validator] functions after them, in the order of
    their definition. *)
Definition SongBase_name (max_length : nat) (v : option pyval)
  : result error_type pystr :=
  match v with
  | None => Err value_error_missing
  | Some VNone => Err type_error_none_not_allowed
  | Some v =>
      match str_validator v with
      | None => Err type_error_str
      | Some s =>
          match constr_length_validator 1 max_length s with
          | Ok s => no_empty_after_strip (strip_whitespace s)
          | Err e => Err e
          end
      end
  end.

(** [album: Optional[str] = Field(None, max_length=200)] *)
Definition album_field (v : option pyval) : result error_type (field pystr) :=
  match v with
  | None => Ok Unset
  | Some VNone => Ok (Set_ None)
  | Some v =>
      match str_validator v with
      | None => Err type_error_str
      | Some s =>
          match constr_length_validator 0 200 s with
          | Ok s => Ok (Set_ (Some s))
          | Err e => Err e
          end
      end
  end.

(** [año: Optional[int] = Field(None, ge=1800, le=datetime.now().year)] *)
Definition año_field (v : option pyval) : result error_type (field Z) :=
  match v with
  | None => Ok Unset
  | Some VNone => Ok (Set_ None)
  | Some v =>
      match int_validator v with
      | None => Err type_error_integer
      | Some z =>
          match number_size_validator z with
          | Ok z => Ok (Set_ (Some z))
          | Err e => Err e
          end
      end
  end.

(** [titulo] and [artista] of [SongUpdate]: an optional [str] with the
    same bounds and [strip_whitespace] only. *)
Definition SongUpdate_name (max_length : nat) (v : option pyval)
  : result error_type (field pystr) :=
  match v with
  | None => Ok Unset
  | Some VNone => Ok (Set_ None)
  | Some v =>
      match str_validator v with
      | None => Err type_error_str
      | Some s =>
          match constr_length_validator 1 max_length s with
          | Ok s => Ok (Set_ (Some (strip_whitespace s)))
          | Err e => Err e
          end
      end
  end.

(** The value of a field that has a default of [None]. *)
Definition field_value {A} (x : field A) : option A :=
  match x with
  | Unset => None
  | Set_ v => v
  end.

(** The entry a failed field adds to the [ValidationError]. *)
Definition errors_of {A} (loc : string) (r : result error_type A)
  : ValidationError :=
  match r with
  | Ok _ => []
  | Err e => [(loc, e)]
  end.

(** [SongCreate] built from a payload; keys that are no field are ignored. *)
Definition SongCreate_validate (payload : pydict)
  : result ValidationError SongCreate :=
  let t := SongBase_name 200 (payload !! "titulo") in
  let a := SongBase_name 100 (payload !! "artista") in
  let al := album_field (payload !! "album") in
  let y := año_field (payload !! "año") in
  match t, a, al, y with
  | Ok t, Ok a, Ok al, Ok y =>
      Ok (mkSongCreate t a (field_value al) (field_value y))
  | _, _, _, _ =>
      Err (errors_of "titulo" t ++ errors_of "artista" a
           ++ errors_of "album" al ++ errors_of "año" y)
  end.

(** [song_data.dict()] *)
Definition of_option {A} (f : A → pyval) (x : option A) : pyval :=
  match x with
  | Some a => f a
  | None => VNone
  end.

Definition SongCreate_dict (s : SongCreate) : pydict :=
  {[ "titulo" := VStr (sc_titulo s); "artista" := VStr (sc_artista s);
     "album" := of_option VStr (sc_album s);
     "año" := of_option VInt (sc_año s) ]}.

(** [values.get(field) is not None] for a field that passed. *)
Definition has_value {A} (r : result error_type (field A)) : bool :=
  match r with
  | Ok (Set_ (Some _)) => true
  | _ => false
  end.

(** [SongUpdate] built from a payload.  The root validator [at_least_one_field]
    runs on the fields that passed, whether or not another failed. *)
Definition SongUpdate_validate (payload : pydict)
  : result ValidationError SongUpdate :=
  let t := SongUpdate_name 200 (payload !! "titulo") in
  let a := SongUpdate_name 100 (payload !! "artista") in
  let al := album_field (payload !! "album") in
  let y := año_field (payload !! "año") in
  let root : ValidationError :=
    if has_value t || has_value a || has_value al || has_value y then []
    else [("__root__", value_error_at_least_one_field)] in
  match t, a, al, y, root with
  | Ok t, Ok a, Ok al, Ok y, [] => Ok (mkSongUpdate t a al y)
  | _, _, _, _, _ =>
      Err (errors_of "titulo" t ++ errors_of "artista" a
           ++ errors_of "album" al ++ errors_of "año" y ++ root)
  end.

(** [song_data.dict(exclude_unset=True)] *)
Definition set_field {A} (key : string) (f : A → pyval) (x : field A)
    (d : pydict) : pydict :=
  match x with
  | Unset => d
  | Set_ v => <[key := of_option f v]> d
  end.

Definition SongUpdate_dict_exclude_unset (s : SongUpdate) : pydict :=
  set_field "titulo" VStr (su_titulo s)
    (set_field "artista" VStr (su_artista s)
       (set_field "album" VStr (su_album s)
          (set_field "año" VInt (su_año s) ∅))).

(** A required field of [Song] of the given type. *)
Definition required {A} (validator : pyval → option A) (e : error_type)
    (v : option pyval) : result error_type A :=
  match v with
  | None => Err value_error_missing
  | Some VNone => Err type_error_none_not_allowed
  | Some v =>
      match validator v with
      | Some a => Ok a
      | None => Err e
      end
  end.

(** [Song] built from a stored record. *)
Definition Song_validate (d : pydict) : result ValidationError Song :=
  let t := SongBase_name 200 (d !! "titulo") in
  let a := SongBase_name 100 (d !! "artista") in
  let al := album_field (d !! "album") in
  let y := año_field (d !! "año") in
  let i := required int_validator type_error_integer (d !! "id") in
  let u := required str_validator type_error_str (d !! "uuid") in
  let c := required datetime_validator type_error_datetime (d !! "created_at") in
  let m := required datetime_validator type_error_datetime (d !! "updated_at") in
  match t, a, al, y, i, u, c, m with
  | Ok t, Ok a, Ok al, Ok y, Ok i, Ok u, Ok c, Ok m =>
      Ok (mkSong t a (field_value al) (field_value y) i u c m)
  | _, _, _, _, _, _, _, _ =>
      Err (errors_of "titulo" t ++ errors_of "artista" a
           ++ errors_of "album" al ++ errors_of "año" y
           ++ errors_of "id" i ++ errors_of "uuid" u
           ++ errors_of "created_at" c ++ errors_of "updated_at" m)
  end.

(** [song.dict()] *)
Definition Song_dict (s : Song) : pydict :=
  {[ "titulo" := VStr (titulo s); "artista" := VStr (artista s);
     "album" := of_option VStr (album s);
     "año" := of_option VInt (año s);
     "id" := VInt (song_id s); "uuid" := VStr (uuid s);
     "created_at" := VDatetime (created_at s);
     "updated_at" := VDatetime (updated_at s) ]}.

End Models.

(** *** [services/database.py] *)

Inductive DatabaseError :=
  | DatabaseReadError
  | DatabaseWriteError
  | SongNotFoundError.

Global Instance DatabaseError_eq_dec : EqDecision DatabaseError.
Proof. solve_decision. Defined.

Section DatabaseService.
Variable R : runtime.

Definition _get_metadata (e : env) : pydict :=
  {[ "version" := VStr (APP_VERSION R);
     "created_at" := isoformat (now e);
     "last_migration" := isoformat (now e);
     "total_records" := VInt 0 ]}.

(** [_create_backup]: a copy that fails is logged and leaves the backup
    as it was. *)
Definition _create_backup (e : env) (f : files) : files :=
  match db f with
  | Some c => if can_backup e then Files (db f) (Some c) (tmp f) else f
  | None => f
  end.

(** The metadata [_write_data] sets before it serializes. *)
Definition stamp_metadata (e : env) (data : document) : document :=
  let metadata := default (_get_metadata e) (doc_metadata data) in
  Document (doc_songs data)
    (Some (<["total_records" :=
               VInt (Z.of_nat (length (get_songs_or_empty data)))]>
             (<["last_updated" := isoformat (now e)]> metadata))).

(** [_write_data]: backup, stamp, dump to the temporary file, replace.
    [json.dump] writes the text piece by piece: when it raises, on a value
    it does not encode or on a failed write, the temporary file is left
    with the text so far. *)
Definition _write_data (e : env) (f : files) (data : document)
  : files * result DatabaseError () :=
  let f1 := _create_backup e f in
  let data := stamp_metadata e data in
  if can_open_w e then
    if json_document data && can_dump e then
      if can_replace e then
        (Files (Some (FDoc data)) (backup f1) None, Ok ())
      else
        (Files (db f1) (backup f1) (Some (FDoc data)), Err DatabaseWriteError)
    else (Files (db f1) (backup f1) (Some FInvalid), Err DatabaseWriteError)
  else (f1, Err DatabaseWriteError).

(** [_initialize_database] *)
Definition _initialize_database (e : env) (f : files)
  : files * result DatabaseError () :=
  match db f with
  | None => _write_data e f (Document (Some []) (Some (_get_metadata e)))
  | Some _ => (f, Ok ())
  end.

(** [_read_data]: a missing file is created; missing ["songs"] and
    ["metadata"] keys are filled in; every failure is a
    [DatabaseReadError]. *)
Definition _read_data (e : env) (f : files)
  : files * result DatabaseError document :=
  match db f with
  | None =>
      match _initialize_database e f with
      | (f1, Ok _) =>
          (f1, Ok (Document (Some []) (Some (_get_metadata e))))
      | (f1, Err _) => (f1, Err DatabaseReadError)
      end
  | Some c =>
      if can_read e then
        match c with
        | FDoc data =>
            (f, Ok (Document (Some (get_songs_or_empty data))
                      (Some (default (_get_metadata e) (doc_metadata data)))))
        | FInvalid => (f, Err DatabaseReadError)
        end
      else (f, Err DatabaseReadError)
  end.

(** The records that parse as a [Song]; the others are skipped. *)
Definition valid_songs (songs_data : list pydict) : list Song :=
  omap (fun song_data =>
          match Song_validate R song_data with
          | Ok song => Some song
          | Err _ => None
          end) songs_data.

Definition get_all_songs (e : env) (f : files)
  : files * result DatabaseError (list Song) :=
  match _read_data e f with
  | (f1, Ok data) => (f1, Ok (valid_songs (get_songs_or_empty data)))
  | (f1, Err _) => (f1, Err DatabaseReadError)
  end.

Definition get_song_by_id (e : env) (f : files) (id : Z)
  : files * result DatabaseError (option Song) :=
  match get_all_songs e f with
  | (f1, Ok songs) =>
      (f1, Ok (List.find (fun song => bool_decide (song_id song = id)) songs))
  | (f1, Err _) => (f1, Err DatabaseReadError)
  end.

(** [[song.get("id", 0) for song in songs_data]] *)
Definition existing_ids (songs_data : list pydict) : list pyval :=
  (fun song : pydict => default (VInt 0) (song !! "id")) <$> songs_data.

(** [max(existing_ids, default=0) + 1]; [None] is the [TypeError] of
    comparing, or adding 1 to, an id that is no integer. *)
Definition new_id (songs_data : list pydict) : option Z :=
  ids ← mapM as_int (existing_ids songs_data);
  Some (max_default0 ids + 1).

(** [song_dict] of [create_song]:
    [{"id": new_id, "uuid": str(uuid4()), **song_data.dict(),
      "created_at": now.isoformat(), "updated_at": now.isoformat()}] *)
Definition song_dict (e : env) (new_id : Z) (song_data : SongCreate)
  : pydict :=
  <["updated_at" := isoformat (now e)]>
    (<["created_at" := isoformat (now e)]>
       (SongCreate_dict song_data
          ∪ {[ "id" := VInt new_id; "uuid" := VStr (uuid4 e) ]})).

Definition create_song (e : env) (f : files) (song_data : SongCreate)
  : files * result DatabaseError Song :=
  match _read_data e f with
  | (f1, Err _) => (f1, Err DatabaseReadError)
  | (f1, Ok data) =>
      let songs_data := get_songs_or_empty data in
      match new_id songs_data with
      | None => (f1, Err DatabaseWriteError)
      | Some new_id =>
          let song_dict := song_dict e new_id song_data in
          match Song_validate R song_dict with
          | Err _ => (f1, Err DatabaseWriteError)
          | Ok song =>
              let songs_data := songs_data ++ [Song_dict song] in
              match _write_data e f1
                      (Document (Some songs_data) (doc_metadata data)) with
              | (f2, Ok _) => (f2, Ok song)
              | (f2, Err _) => (f2, Err DatabaseWriteError)
              end
          end
      end
  end.

(** [current_song] of [update_song] once the loop
    [for key, value in update_data.items(): current_song[key] = value]
    and [current_song["updated_at"] = datetime.now().isoformat()] have
    run. *)
Definition merge_update (e : env) (update_data current_song : pydict)
  : pydict :=
  <["updated_at" := isoformat (now e)]> (update_data ∪ current_song).

(** The first index whose record has the id, as the loop finds it. *)
Definition find_index (id : Z) (songs_data : list pydict)
  : option (nat * pydict) :=
  list_find (fun song_dict => id_matches id song_dict = true) songs_data.

(** [update_song]; every exception but [SongNotFoundError], a failed
    read included, leaves as a [DatabaseWriteError]. *)
Definition update_song (e : env) (f : files) (id : Z)
    (song_data : SongUpdate) : files * result DatabaseError Song :=
  match _read_data e f with
  | (f1, Err _) => (f1, Err DatabaseWriteError)
  | (f1, Ok data) =>
      let songs_data := get_songs_or_empty data in
      match find_index id songs_data with
      | None => (f1, Err SongNotFoundError)
      | Some (song_index, current_song) =>
          let update_data := SongUpdate_dict_exclude_unset song_data in
          let current_song := merge_update e update_data current_song in
          match Song_validate R current_song with
          | Err _ => (f1, Err DatabaseWriteError)
          | Ok updated_song =>
              let songs_data :=
                <[song_index := Song_dict updated_song]> songs_data in
              match _write_data e f1
                      (Document (Some songs_data) (doc_metadata data)) with
              | (f2, Ok _) => (f2, Ok updated_song)
              | (f2, Err _) => (f2, Err DatabaseWriteError)
              end
          end
      end
  end.

(** [delete_song]: [False] when no record had the id. *)
Definition delete_song (e : env) (f : files) (id : Z)
  : files * result DatabaseError bool :=
  match _read_data e f with
  | (f1, Err _) => (f1, Err DatabaseWriteError)
  | (f1, Ok data) =>
      let songs_data := get_songs_or_empty data in
      let original_length := length songs_data in
      let songs_data :=
        filter (fun song => id_matches id song = false) songs_data in
      if bool_decide (length songs_data = original_length) then
        (f1, Ok false)
      else
        match _write_data e f1
                (Document (Some songs_data) (doc_metadata data)) with
        | (f2, Ok _) => (f2, Ok true)
        | (f2, Err _) => (f2, Err DatabaseWriteError)
        end
  end.

(** *** [app.py]: the listing handler *)

Record SongList := mkSongList {
  songs : list Song;
  total : Z;
  page : Z;
  per_page : Z;
  has_next : bool;
  has_prev : bool
}.

Global Instance SongList_eq_dec : EqDecision SongList.
Proof. solve_decision. Defined.

(** [get_songs]; a query parameter is [None] when it is absent or no
    integer, and then takes its default.  A failed read is answered
    with status 500. *)
Definition get_songs (e : env) (f : files) (page_arg per_page_arg : option Z)
  : files * result Z SongList :=
  let page := Z.max 1 (default 1 page_arg) in
  let per_page := Z.min 100 (Z.max 1 (default 50 per_page_arg)) in
  match get_all_songs e f with
  | (f1, Err _) => (f1, Err 500)
  | (f1, Ok songs) =>
      let total := Z.of_nat (length songs) in
      let start_idx := (page - 1) * per_page in
      let end_idx := start_idx + per_page in
      let paginated_songs := py_slice songs start_idx end_idx in
      (f1, Ok (mkSongList paginated_songs total page per_page
                 (bool_decide (end_idx < total)) (bool_decide (page > 1))))
  end.

End DatabaseService.

(** *** [services/database.py]: statistics *)

(** [min(l)] and [max(l)] of a list that is not empty. *)
Definition py_min (z : Z) (l : list Z) : Z := foldl Z.min z l.
Definition py_max (z : Z) (l : list Z) : Z := foldl Z.max z l.

Record DatabaseStats := mkDatabaseStats {
  total_songs : Z;
  total_artists : Z;
  total_albums : Z;
  min_year : option Z;
  max_year : option Z;
  database_size : Z
}.

(** The albums the loop adds: [if song.album] leaves out [None] and the
    empty string. *)
Definition counted_album (song : Song) : option (list N) :=
  match album song with
  | Some (c :: a) => Some (c :: a)
  | _ => None
  end.

(** The years the loop appends: [if song.año] leaves out [None] and 0. *)
Definition counted_year (song : Song) : option Z :=
  match año song with
  | Some y => if bool_decide (y = 0) then None else Some y
  | None => None
  end.

Section Statistics.
Variable R : runtime.

(** [get_database_stats]; [st_size] is the size in bytes the file system
    reports for the backing file. *)
Definition get_database_stats (st_size : Z) (e : env) (f : files)
  : files * result DatabaseError DatabaseStats :=
  match get_all_songs R e f with
  | (f1, Err _) => (f1, Err DatabaseReadError)
  | (f1, Ok songs) =>
      let artists : gset (list N) := list_to_set (artista <$> songs) in
      let albums : gset (list N) := list_to_set (omap counted_album songs) in
      let years := omap counted_year songs in
      (f1, Ok (mkDatabaseStats
                 (Z.of_nat (length songs))
                 (Z.of_nat (size artists))
                 (Z.of_nat (size albums))
                 (match years with [] => None | y :: l => Some (py_min y l) end)
                 (match years with [] => None | y :: l => Some (py_max y l) end)
                 (match db f1 with Some _ => st_size | None => 0 end)))
  end.

End Statistics.

(** *** [app.py] and [utils/errors.py]: the handlers of single songs *)

Module App.

(** An [AppException] as [handle_app_exception] answers it: the error code
    and the HTTP status. *)
Record AppException := mkAppException {
  error_code : string;
  status_code : Z
}.

Global Instance AppException_eq_dec : EqDecision AppException.
Proof. solve_decision. Defined.

(** [utils.errors.ValidationError] and [utils.errors.NotFoundError]. *)
Definition ValidationError : AppException :=
  mkAppException "VALIDATION_ERROR" 400.
Definition NotFoundError : AppException := mkAppException "NOT_FOUND" 404.

(** The [AppException]s the handlers raise themselves. *)
Definition DATABASE_READ_ERROR : AppException :=
  mkAppException "DATABASE_READ_ERROR" 500.
Definition DATABASE_WRITE_ERROR : AppException :=
  mkAppException "DATABASE_WRITE_ERROR" 500.
Definition INTERNAL_ERROR : AppException :=
  mkAppException "INTERNAL_ERROR" 500.

(** [request.json]: the body does not parse ([BadJson], which raises), or
    it is [null] or an object, or another JSON value (a list, a string, a
    number, a boolean), of which the handlers see the truth value only. *)
Inductive request_json :=
  | BadJson
  | Json (body : option pydict)
  | JsonOther (truthy : bool).

(** A POST or PUT request: whether its Content-Type header contains
    [application/json], and its body. *)
Record request := Request {
  content_type_json : bool;
  json : request_json
}.

(** A handler's answer: the status and the body, or the [AppException]
    that leaves it. *)
Definition answer (A : Type) : Type := result AppException (Z * A).

Section Handlers.
Variable R : runtime.

(** [get_song]: a read error is [DATABASE_READ_ERROR]. *)
Definition get_song (e : env) (f : files) (song_id : Z)
  : files * answer Song :=
  match get_song_by_id R e f song_id with
  | (f1, Ok (Some song)) => (f1, Ok (200, song))
  | (f1, Ok None) => (f1, Err NotFoundError)
  | (f1, Err DatabaseReadError) => (f1, Err DATABASE_READ_ERROR)
  | (f1, Err _) => (f1, Err INTERNAL_ERROR)
  end.

(** What leaves the [try] of [create_song] and [update_song] when the
    service raises: [DatabaseWriteError] is caught by name, every other
    class, [SongNotFoundError] and [DatabaseReadError] among them, by
    [except Exception]. *)
Definition of_service_error (x : DatabaseError) : AppException :=
  match x with
  | DatabaseWriteError => DATABASE_WRITE_ERROR
  | _ => INTERNAL_ERROR
  end.

(** The checks [create_song] and [update_song] share:
    [validate_json_content_type], then [if not request.json].  A body that
    does not parse raises in [request.json], and a body that is true and no
    object raises a [TypeError] when the model is called with its keys;
    [except Exception] turns both into [INTERNAL_ERROR]. *)
Definition request_body (req : request) : result AppException pydict :=
  if content_type_json req then
    match json req with
    | BadJson => Err INTERNAL_ERROR
    | Json None => Err ValidationError
    | Json (Some body) =>
        if bool_decide (body = ∅) then Err ValidationError else Ok body
    | JsonOther false => Err ValidationError
    | JsonOther true => Err INTERNAL_ERROR
    end
  else Err ValidationError.

(** [create_song]: the [ValidationError] of pydantic is not the one the
    handler catches by name, and leaves as [INTERNAL_ERROR]. *)
Definition create_song (e : env) (f : files) (req : request)
  : files * answer Song :=
  match request_body req with
  | Err x => (f, Err x)
  | Ok body =>
      match SongCreate_validate R body with
      | Err _ => (f, Err INTERNAL_ERROR)
      | Ok song_data =>
          match Pro.create_song R e f song_data with
          | (f1, Ok song) => (f1, Ok (201, song))
          | (f1, Err x) => (f1, Err (of_service_error x))
          end
      end
  end.

Definition update_song (e : env) (f : files) (song_id : Z) (req : request)
  : files * answer Song :=
  match request_body req with
  | Err x => (f, Err x)
  | Ok body =>
      match SongUpdate_validate R body with
      | Err _ => (f, Err INTERNAL_ERROR)
      | Ok song_data =>
          match Pro.update_song R e f song_id song_data with
          | (f1, Ok song) => (f1, Ok (200, song))
          | (f1, Err x) => (f1, Err (of_service_error x))
          end
      end
  end.

(** [delete_song]: the answer carries the id that was deleted. *)
Definition delete_song (e : env) (f : files) (song_id : Z)
  : files * answer Z :=
  match Pro.delete_song R e f song_id with
  | (f1, Ok true) => (f1, Ok (200, song_id))
  | (f1, Ok false) => (f1, Err NotFoundError)
  | (f1, Err x) => (f1, Err (of_service_error x))
  end.

End Handlers.

End App.

End Pro.

(** ** Sample data *)

(** The number a string of decimal digits spells. *)
Definition digit (c : N) : option Z :=
  if ((48 <=? c) && (c <=? 57))%N then Some (Z.of_N c - 48) else None.

Definition number (s : pystr) : option Z :=
  foldl (λ acc c, n ← acc; d ← digit c; Some (10 * n + d)) (Some 0) s.

(** The [datetime] that the text [YYYY-MM-DDTHH:MM:SS], with or without
    [.ffffff], spells. *)
Definition fromisoformat (v : pyval) : option datetime :=
  match v with
  | VStr s =>
      let part (i n : nat) := number (take n (drop i s)) in
      let sep (i : nat) (c : N) := bool_decide (s !! i = Some c) in
      if sep 4%nat 45%N && sep 7%nat 45%N && sep 10%nat 84%N
         && sep 13%nat 58%N && sep 16%nat 58%N
         && (bool_decide (length s = 19%nat)
             || bool_decide (length s = 26%nat) && sep 19%nat 46%N)
      then
        year ← part 0%nat 4%nat; month ← part 5%nat 2%nat;
        day ← part 8%nat 2%nat; hour ← part 11%nat 2%nat;
        minute ← part 14%nat 2%nat; second ← part 17%nat 2%nat;
        microsecond ← part 20%nat 6%nat;
        Some (DateTime year month day hour minute second microsecond)
      else None
  | _ => None
  end.

(** A runtime whose pydantic reads a timestamp from its ISO-8601 text and
    coerces nothing else; the samples below hold no other value that is not
    of the declared type. *)
Definition sample_runtime : Pro.runtime :=
  Pro.Runtime (pys "1.0.0") 2026 (λ _, None) (λ _, None) fromisoformat.

(** The instants of the two sample calls, and of the fixtures' records. *)
Definition sample_now : datetime := DateTime 2023 11 14 22 13 20 0.
Definition sample_later : datetime := DateTime 2023 11 14 22 15 0 250000.
Definition sample_created : datetime := DateTime 2023 1 1 0 0 0 0.

(** A call during which every file operation goes through. *)
Definition rw_env : env :=
  Env true true true true true sample_now
    (pys "550e8400-e29b-41d4-a716-446655440009").

(** A call during which the files can be read and not written. *)
Definition ro_env : env :=
  Env true false false false false sample_later
    (pys "550e8400-e29b-41d4-a716-446655440010").

Definition sample_song (id : Z) (titulo artista album : string) (año : Z)
  : pydict :=
  {[ "id" := VInt id; "uuid" := VStr (pys "550e8400-e29b-41d4-a716-446655440001");
     "titulo" := VStr (pys titulo); "artista" := VStr (pys artista);
     "album" := VStr (pys album); "año" := VInt año;
     "created_at" := VStr (pys "2023-01-01T00:00:00");
     "updated_at" := VStr (pys "2023-01-01T00:00:00") ]}.

(** The three songs of [tests/conftest.py]. *)
Definition sample_songs_data : list pydict :=
  [ sample_song 1 "Bohemian Rhapsody" "Queen" "A Night at the Opera" 1975;
    sample_song 2 "Imagine" "John Lennon" "Imagine" 1971;
    sample_song 3 "Yesterday" "The Beatles" "Help!" 1965 ].

Definition files_of (songs : list pydict) : files :=
  Files (Some (FDoc (Document (Some songs) None))) None None.

Definition sample_files : files := files_of sample_songs_data.

(** The song of the fixture [create_song_data]. *)
Definition sample_create : Pro.SongCreate :=
  Pro.mkSongCreate (pys "Test Song") (pys "Test Artist")
    (Some (pys "Test Album")) (Some 2023).

(** A POST body with the two required fields. *)
Definition sample_body : pydict :=
  {[ "titulo" := VStr (pys "Test Song"); "artista" := VStr (pys "Test Artist") ]}.


(** An update payload whose title is three spaces. *)
Definition blank_title_payload : pydict := {[ "titulo" := VStr (pys "   ") ]}.

(** Two records that share the id 1, then one with the id 2. *)
Definition duplicate_songs_data : list pydict :=
  [ sample_song 1 "Bohemian Rhapsody" "Queen" "A Night at the Opera" 1975;
    sample_song 1 "Imagine" "John Lennon" "Imagine" 1971;
    sample_song 2 "Yesterday" "The Beatles" "Help!" 1965 ].


(** The first sample song, as a [Song]. *)
Definition sample_song1 : Pro.Song :=
  Pro.mkSong (pys "Bohemian Rhapsody") (pys "Queen")
    (Some (pys "A Night at the Opera")) (Some 1975) 1
    (pys "550e8400-e29b-41d4-a716-446655440001") sample_created sample_created.

(** The update [{"album": "X"}]. *)
Definition album_payload : pydict := {[ "album" := VStr (pys "X") ]}.

(** The update [SongUpdate(album="X")]. *)
Definition album_update : Pro.SongUpdate :=
  Pro.mkSongUpdate Pro.Unset Pro.Unset (Pro.Set_ (Some (pys "X"))) Pro.Unset.

(** An update payload that names an id, a uuid and a creation time. *)
Definition identity_payload : pydict :=
  {[ "id" := VInt 7; "uuid" := VStr (pys "forged");
     "created_at" := VStr (pys "1999-12-31T23:59:59") ]}.

(** The other two sample songs, and the three in file order. *)
Definition sample_song2 : Pro.Song :=
  Pro.mkSong (pys "Imagine") (pys "John Lennon") (Some (pys "Imagine"))
    (Some 1971) 2 (pys "550e8400-e29b-41d4-a716-446655440001")
    sample_created sample_created.

Definition sample_song3 : Pro.Song :=
  Pro.mkSong (pys "Yesterday") (pys "The Beatles") (Some (pys "Help!"))
    (Some 1965) 3 (pys "550e8400-e29b-41d4-a716-446655440001")
    sample_created sample_created.

Definition sample_songs : list Pro.Song :=
  [sample_song1; sample_song2; sample_song3].

(** No backing file yet, and a backing file that is no JSON object. *)
Definition missing_files : files := Files None None None.
Definition corrupt_files : files := Files (Some FInvalid) None None.

(** A record from which the title is missing. *)
Definition untitled_record : pydict :=
  delete "titulo" (sample_song 9 "" "Nobody" "" 1999).

(** POST and PUT requests with a JSON body. *)
Definition sample_request : Pro.App.request :=
  Pro.App.Request true (Pro.App.Json (Some sample_body)).

Definition album_request : Pro.App.request :=
  Pro.App.Request true (Pro.App.Json (Some album_payload)).

(** ** Notions the statements use *)

(** The records the backing file holds; none when it is absent or cannot be
    read as a document. *)
Definition stored_songs (f : files) : list pydict :=
  match db f with
  | Some (FDoc d) => get_songs_or_empty d
  | _ => []
  end.

(** The record of a song as a file holds it: the keys of [song.dict()],
    the two timestamps as their ISO-8601 text. *)
Definition Song_record (s : Pro.Song) : pydict :=
  <["created_at" := isoformat (Pro.created_at s)]>
    (<["updated_at" := isoformat (Pro.updated_at s)]> (Pro.Song_dict s)).

(** pydantic reads the timestamp [t] back from its ISO-8601 text. *)
Definition parses (R : Pro.runtime) (t : datetime) : Prop :=
  Pro.coerce_datetime R (isoformat t) = Some t.

(** Every step of a write of the professional variant goes through: the
    temporary file opens, the dump completes, the replace succeeds. *)
Definition committable (e : env) : bool :=
  can_open_w e && can_dump e && can_replace e.

(** The metadata of [d] counts its songs and carries [t] as the time of the
    last update. *)
Definition metadata_stamped (t : datetime) (d : document) : Prop :=
  ∃ m, doc_metadata d = Some m
    ∧ m !! "total_records"
      = Some (VInt (Z.of_nat (length (get_songs_or_empty d))))
    ∧ m !! "last_updated" = Some (isoformat t).

(** * Properties *)

(** A closed statement that can be decided is settled by evaluating its
    decision. *)
Ltac by_evaluation :=
  apply (bool_decide_eq_true_1 _); vm_compute; reflexivity.

(** ** Listing with pagination *)

Lemma page_end_idx (page per_page : Z) :
  (page - 1) * per_page + per_page = page * per_page.
Proof. ring. Qed.

(** C9: whenever the store can be read, [get_songs] answers with a page:
    [page] is at least 1, [per_page] is clamped to 1..100,
    [has_next = (page * per_page < total)], [has_prev = (page > 1)], the
    page is the slice of the listing it names, and a page past the end is
    the empty list, not an error.  With 3 records and [per_page = 1], page 1
    has 1 item, a next and no previous page, and page 4 has no items. *)
Theorem get_songs_pagination R e f page_arg per_page_arg f1 all :
  Pro.get_all_songs R e f = (f1, Ok all) →
  ∃ sl, Pro.get_songs R e f page_arg per_page_arg = (f1, Ok sl)
    ∧ Pro.page sl = Z.max 1 (default 1 page_arg)
    ∧ Pro.per_page sl = Z.min 100 (Z.max 1 (default 50 per_page_arg))
    ∧ 1 ≤ Pro.page sl
    ∧ 1 ≤ Pro.per_page sl ≤ 100
    ∧ Pro.total sl = Z.of_nat (length all)
    ∧ Pro.songs sl =
        take (Z.to_nat (Pro.per_page sl))
          (drop (Z.to_nat ((Pro.page sl - 1) * Pro.per_page sl)) all)
    ∧ Pro.has_next sl = bool_decide (Pro.page sl * Pro.per_page sl < Pro.total sl)
    ∧ Pro.has_prev sl = bool_decide (Pro.page sl > 1)
    ∧ (Pro.total sl ≤ (Pro.page sl - 1) * Pro.per_page sl → Pro.songs sl = [])
    ∧ (length all = 3%nat → per_page_arg = Some 1 →
       (page_arg = Some 1 →
        length (Pro.songs sl) = 1%nat
        ∧ Pro.has_next sl = true ∧ Pro.has_prev sl = false)
       ∧ (page_arg = Some 4 → Pro.songs sl = [])).
Proof.
  intros Hall. unfold Pro.get_songs. rewrite Hall.
  set (page := Z.max 1 (default 1 page_arg)).
  set (per_page := Z.min 100 (Z.max 1 (default 50 per_page_arg))).
  assert (Hpage : 1 ≤ page) by (unfold page; lia).
  assert (Hper : 1 ≤ per_page ≤ 100) by (unfold per_page; lia).
  eexists. split; [reflexivity|]. cbn [Pro.page Pro.per_page Pro.total
    Pro.songs Pro.has_next Pro.has_prev].
  assert (Hslice : py_slice all ((page - 1) * per_page)
                     ((page - 1) * per_page + per_page)
                   = take (Z.to_nat per_page)
                       (drop (Z.to_nat ((page - 1) * per_page)) all)).
  { unfold py_slice. do 2 f_equal. lia. }
  split_and!; try done; try lia.
  - by rewrite page_end_idx.
  - intros Htotal. rewrite Hslice, drop_ge; [apply take_nil | lia].
  - intros Hlen Hpp. subst page per_page. rewrite Hpp in *. cbn in *.
    split.
    + intros ->. cbn in *. rewrite Hslice, length_take, length_drop, Hlen.
      split_and!; [lia | | done].
      apply bool_decide_eq_true. lia.
    + intros ->. cbn in *. rewrite Hslice, drop_ge; [apply take_nil | lia].
Qed.

(** ** Trimming *)

Lemma lstrip_length s : (length (lstrip s) ≤ length s)%nat.
Proof.
  induction s as [|c s IH]; cbn; [lia|].
  destruct (py_isspace c); cbn; lia.
Qed.

Lemma lstrip_head s c t : lstrip s = c :: t → py_isspace c = false.
Proof.
  induction s as [|c' s IH]; cbn; [done|].
  destruct (py_isspace c') eqn:Hc; [done|]. by intros [= <- _].
Qed.

Lemma lstrip_nonspace c s : py_isspace c = false → lstrip (c :: s) = c :: s.
Proof. intros Hc. cbn. by rewrite Hc. Qed.

Lemma lstrip_idem s : lstrip (lstrip s) = lstrip s.
Proof.
  destruct (lstrip s) as [|c t] eqn:Hs; [done|].
  apply lstrip_nonspace. by eapply lstrip_head.
Qed.

Lemma lstrip_app_nonspace l c r :
  py_isspace c = false → lstrip (l ++ c :: r) = lstrip l ++ c :: r.
Proof.
  intros Hc. induction l as [|x l IH]; cbn.
  - by rewrite Hc.
  - by destruct (py_isspace x).
Qed.

Lemma rstrip_length s : (length (rstrip s) ≤ length s)%nat.
Proof.
  unfold rstrip. rewrite length_reverse.
  etrans; [apply lstrip_length|]. by rewrite length_reverse.
Qed.

Lemma rstrip_cons_nonspace c s :
  py_isspace c = false → rstrip (c :: s) = c :: rstrip s.
Proof.
  intros Hc. unfold rstrip.
  rewrite reverse_cons, lstrip_app_nonspace by done.
  by rewrite reverse_app, reverse_singleton.
Qed.

Lemma rstrip_idem s : rstrip (rstrip s) = rstrip s.
Proof. unfold rstrip. by rewrite reverse_involutive, lstrip_idem. Qed.

Lemma strip_length s : (length (strip s) ≤ length s)%nat.
Proof.
  unfold strip. etrans; [apply rstrip_length | apply lstrip_length].
Qed.

(** Trimming a trimmed string changes nothing. *)
Lemma strip_idem s : strip (strip s) = strip s.
Proof.
  unfold strip. destruct (lstrip s) as [|c t] eqn:Hs; [done|].
  assert (Hc : py_isspace c = false) by by eapply lstrip_head.
  rewrite rstrip_cons_nonspace by done.
  rewrite lstrip_nonspace by done.
  by rewrite rstrip_cons_nonspace, rstrip_idem.
Qed.

(** ** Validation yields records in normal form *)

Section Validation.
Variable R : Pro.runtime.

Lemma constr_length_validator_Ok lo hi s s' :
  Pro.constr_length_validator lo hi s = Ok s' →
  s' = s ∧ (lo ≤ length s ≤ hi)%nat.
Proof.
  unfold Pro.constr_length_validator.
  destruct (_ <? lo)%nat eqn:Hlo; [done|].
  destruct (hi <? _)%nat eqn:Hhi; [done|].
  apply Nat.ltb_ge in Hlo, Hhi. by intros [= <-].
Qed.

Lemma constr_length_validator_intro lo hi s :
  (lo ≤ length s ≤ hi)%nat → Pro.constr_length_validator lo hi s = Ok s.
Proof.
  intros [Hlo Hhi]. unfold Pro.constr_length_validator.
  apply Nat.ltb_ge in Hlo, Hhi. by rewrite Hlo, Hhi.
Qed.

(** What [titulo] and [artista] of [SongBase] accept from a string. *)
Lemma SongBase_name_str hi s :
  Pro.SongBase_name R hi (Some (VStr s)) =
    if (length s <? 1)%nat then Err Pro.value_error_any_str_min_length
    else if (hi <? length s)%nat then Err Pro.value_error_any_str_max_length
    else match strip s with
         | [] => Err Pro.value_error_empty_after_strip
         | _ => Ok (strip s)
         end.
Proof.
  unfold Pro.SongBase_name, Pro.str_validator, Pro.constr_length_validator,
    Pro.no_empty_after_strip, Pro.strip_whitespace.
  destruct (_ <? 1)%nat; [done|]. by destruct (hi <? _)%nat.
Qed.

Lemma SongBase_name_Ok hi v s :
  Pro.SongBase_name R hi v = Ok s →
  s ≠ [] ∧ strip s = s ∧ (length s ≤ hi)%nat.
Proof.
  unfold Pro.SongBase_name. intros H.
  destruct v as [v|]; [|done].
  assert (∃ s0, Pro.constr_length_validator 1 hi s0 = Ok s0
                ∧ Pro.no_empty_after_strip (Pro.strip_whitespace s0) = Ok s)
    as (s0 & Hlen & Hs).
  { destruct (decide (v = VNone)) as [->|Hv]; [done|].
    destruct (Pro.str_validator R v) as [s0|] eqn:Hstr;
      [|by destruct v].
    destruct (Pro.constr_length_validator 1 hi s0) as [s1|] eqn:Hl;
      [|by destruct v].
    apply constr_length_validator_Ok in Hl as Hl'. destruct Hl' as [-> _].
    exists s0. split; [done|]. by destruct v. }
  apply constr_length_validator_Ok in Hlen as [_ Hlen].
  unfold Pro.no_empty_after_strip, Pro.strip_whitespace in Hs.
  destruct (strip s0) as [|c t] eqn:Hstrip; [done|].
  injection Hs as <-. rewrite <- Hstrip. split_and!.
  - by rewrite Hstrip.
  - apply strip_idem.
  - pose proof (strip_length s0). lia.
Qed.

(** A name that validation produced validates to itself. *)
Lemma SongBase_name_normal hi s :
  s ≠ [] → strip s = s → (length s ≤ hi)%nat →
  Pro.SongBase_name R hi (Some (VStr s)) = Ok s.
Proof.
  intros Hne Hstrip Hlen. rewrite SongBase_name_str, Hstrip.
  destruct s as [|c t]; [done|]. cbn [length] in *.
  replace (S (length t) <? 1)%nat with false by (symmetry; apply Nat.ltb_ge; lia).
  replace (hi <? S (length t))%nat with false by (symmetry; apply Nat.ltb_ge; lia).
  done.
Qed.

Lemma album_field_Ok v x :
  Pro.album_field R v = Ok x →
  Pro.album_field R (Some (Pro.of_option VStr (Pro.field_value x)))
  = Ok (Pro.Set_ (Pro.field_value x)).
Proof.
  unfold Pro.album_field. intros H. destruct v as [v|]; [|by injection H as <-].
  assert (x = Pro.Set_ None ∨
          ∃ s, x = Pro.Set_ (Some s)
               ∧ Pro.constr_length_validator 0 200 s = Ok s) as [->|(s & -> & Hs)].
  { destruct (decide (v = VNone)) as [->|Hv]; [left; congruence|].
    destruct (Pro.str_validator R v) as [s0|] eqn:Hstr;
      [|by destruct v].
    destruct (Pro.constr_length_validator 0 200 s0) as [s1|] eqn:Hl;
      [|by destruct v].
    apply constr_length_validator_Ok in Hl as Hl'. destruct Hl' as [-> _].
    right. exists s0. split; [|done]. destruct v; congruence. }
  - done.
  - cbn -[Pro.constr_length_validator]. by rewrite Hs.
Qed.

Lemma year_field_Ok v x :
  Pro.año_field R v = Ok x →
  Pro.año_field R (Some (Pro.of_option VInt (Pro.field_value x)))
  = Ok (Pro.Set_ (Pro.field_value x)).
Proof.
  unfold Pro.año_field. intros H. destruct v as [v|]; [|by injection H as <-].
  assert (x = Pro.Set_ None ∨
          ∃ z, x = Pro.Set_ (Some z)
               ∧ Pro.number_size_validator R z = Ok z) as [->|(z & -> & Hz)].
  { assert (Hsize : ∀ z z', Pro.number_size_validator R z = Ok z' → z' = z).
    { intros z z'. unfold Pro.number_size_validator.
      repeat case_bool_decide; congruence. }
    destruct (decide (v = VNone)) as [->|Hv]; [left; congruence|].
    destruct (Pro.int_validator R v) as [z0|] eqn:Hint;
      [|by destruct v].
    destruct (Pro.number_size_validator R z0) as [z1|] eqn:Hl;
      [|by destruct v].
    apply Hsize in Hl as Hl'. subst z1.
    right. exists z0. split; [|done]. destruct v; congruence. }
  - done.
  - cbn -[Pro.number_size_validator]. by rewrite Hz.
Qed.

End Validation.

Section SongModel.
Variable R : Pro.runtime.

(** A record validates as a [Song] exactly when its eight fields do. *)
Lemma Song_validate_Ok d s :
  Pro.Song_validate R d = Ok s ↔
  ∃ al y,
    Pro.SongBase_name R 200 (d !! "titulo") = Ok (Pro.titulo s)
    ∧ Pro.SongBase_name R 100 (d !! "artista") = Ok (Pro.artista s)
    ∧ Pro.album_field R (d !! "album") = Ok al
    ∧ Pro.album s = Pro.field_value al
    ∧ Pro.año_field R (d !! "año") = Ok y
    ∧ Pro.año s = Pro.field_value y
    ∧ Pro.required (Pro.int_validator R) Pro.type_error_integer (d !! "id")
      = Ok (Pro.song_id s)
    ∧ Pro.required (Pro.str_validator R) Pro.type_error_str (d !! "uuid")
      = Ok (Pro.uuid s)
    ∧ Pro.required (Pro.datetime_validator R) Pro.type_error_datetime
        (d !! "created_at") = Ok (Pro.created_at s)
    ∧ Pro.required (Pro.datetime_validator R) Pro.type_error_datetime
        (d !! "updated_at") = Ok (Pro.updated_at s).
Proof.
  unfold Pro.Song_validate. split.
  - intros H.
    destruct (Pro.SongBase_name R 200 _) as [t|]; [|done].
    destruct (Pro.SongBase_name R 100 _) as [a|]; [|done].
    destruct (Pro.album_field R _) as [al|]; [|done].
    destruct (Pro.año_field R _) as [y|]; [|done].
    destruct (Pro.required (Pro.int_validator R) _ _) as [i|]; [|done].
    destruct (Pro.required (Pro.str_validator R) _ _) as [u|]; [|done].
    destruct (Pro.required _ _ (d !! "created_at")) as [c|]; [|done].
    destruct (Pro.required _ _ (d !! "updated_at")) as [m|]; [|done].
    injection H as <-. by exists al, y.
  - intros (al & y & -> & -> & -> & Hal & -> & Hy & -> & -> & -> & ->).
    destruct s; cbn in *. by subst.
Qed.

Lemma Song_dict_lookup s :
  Pro.Song_dict s !! "titulo" = Some (VStr (Pro.titulo s))
  ∧ Pro.Song_dict s !! "artista" = Some (VStr (Pro.artista s))
  ∧ Pro.Song_dict s !! "album" = Some (Pro.of_option VStr (Pro.album s))
  ∧ Pro.Song_dict s !! "año" = Some (Pro.of_option VInt (Pro.año s))
  ∧ Pro.Song_dict s !! "id" = Some (VInt (Pro.song_id s))
  ∧ Pro.Song_dict s !! "uuid" = Some (VStr (Pro.uuid s))
  ∧ Pro.Song_dict s !! "created_at" = Some (VDatetime (Pro.created_at s))
  ∧ Pro.Song_dict s !! "updated_at" = Some (VDatetime (Pro.updated_at s)).
Proof. by split_and!. Qed.

(** The stored form of a song read back from it is that song: what
    validation produced needs no further trimming. *)
Lemma Song_validate_dict d s :
  Pro.Song_validate R d = Ok s → Pro.Song_validate R (Pro.Song_dict s) = Ok s.
Proof.
  intros (al & y & Ht & Ha & Hal & Hal' & Hy & Hy' & _)%Song_validate_Ok.
  apply Song_validate_Ok.
  destruct (Song_dict_lookup s)
    as (-> & -> & -> & -> & -> & -> & -> & ->).
  apply SongBase_name_Ok in Ht as (? & ? & ?).
  apply SongBase_name_Ok in Ha as (? & ? & ?).
  apply album_field_Ok in Hal. apply year_field_Ok in Hy.
  exists (Pro.Set_ (Pro.field_value al)), (Pro.Set_ (Pro.field_value y)).
  rewrite Hal', Hy'.
  split_and!; try done; by apply SongBase_name_normal.
Qed.

Lemma valid_songs_app l1 l2 :
  Pro.valid_songs R (l1 ++ l2) = Pro.valid_songs R l1 ++ Pro.valid_songs R l2.
Proof. apply omap_app. Qed.

Lemma valid_songs_dict d s :
  Pro.Song_validate R d = Ok s → Pro.valid_songs R [Pro.Song_dict s] = [s].
Proof.
  intros H%Song_validate_dict. unfold Pro.valid_songs. cbn. by rewrite H.
Qed.

End SongModel.

(** ** Persistence of the professional variant *)

Lemma get_songs_or_empty_Some data l :
  doc_songs data = Some l → get_songs_or_empty data = l.
Proof. unfold get_songs_or_empty. by intros ->. Qed.

(** ** What [json.dump] encodes *)

Lemma json_dict_lookup d k v :
  json_dict d = true → d !! k = Some v → json_encodable v = true.
Proof.
  unfold json_dict. intros H%bool_decide_eq_true Hk. by apply (H k v).
Qed.

Lemma json_dict_insert d k v :
  json_encodable v = true → json_dict d = true → json_dict (<[k := v]> d) = true.
Proof.
  unfold json_dict. intros Hv Hd%bool_decide_eq_true.
  apply bool_decide_eq_true. by apply map_Forall_insert_2.
Qed.

Lemma json_dict_empty : json_dict ∅ = true.
Proof. apply bool_decide_eq_true, map_Forall_empty. Qed.

(** [song.dict()] holds [datetime] objects: [json.dump] does not encode
    it. *)
Lemma json_dict_Song_dict s : json_dict (Pro.Song_dict s) = false.
Proof.
  destruct (json_dict (Pro.Song_dict s)) eqn:H; [|done].
  destruct (Song_dict_lookup s) as (_ & _ & _ & _ & _ & _ & Hc & _).
  by apply (json_dict_lookup _ _ _ H) in Hc.
Qed.

Lemma forallb_json_app l d :
  json_dict d = false → forallb json_dict (l ++ [d]) = false.
Proof.
  intros Hd. rewrite forallb_app. cbn. rewrite Hd.
  by destruct (forallb json_dict l).
Qed.

Lemma forallb_json_insert (l : list pydict) i d :
  (i < length l)%nat → json_dict d = false →
  forallb json_dict (<[i := d]> l) = false.
Proof.
  revert i. induction l as [|x l IH]; intros i Hi Hd; cbn in Hi; [lia|].
  destruct i as [|i]; cbn.
  - by rewrite Hd.
  - rewrite IH by (done || lia). by destruct (json_dict x).
Qed.

Lemma forallb_json_filter (P : pydict → Prop) `{!∀ d, Decision (P d)} l :
  forallb json_dict l = true → forallb json_dict (filter P l) = true.
Proof.
  induction l as [|x l IH]; [done|]. cbn [forallb].
  intros [Hx Hl]%andb_true_iff. destruct (decide (P x)).
  - rewrite filter_cons_True by done. cbn [forallb]. by rewrite Hx, IH.
  - rewrite filter_cons_False by done. by apply IH.
Qed.

Section Persistence.
Variable R : Pro.runtime.

Lemma _create_backup_db e f : db (Pro._create_backup e f) = db f.
Proof.
  unfold Pro._create_backup. destruct (db f) eqn:Hdb; [|done].
  by destruct (can_backup e).
Qed.

Lemma _get_metadata_json e : json_dict (Pro._get_metadata R e) = true.
Proof.
  unfold Pro._get_metadata.
  repeat (apply json_dict_insert; [done|]).
  apply json_dict_empty.
Qed.

(** Stamping leaves the songs, and metadata that [json.dump] encodes is
    still so once stamped. *)
Lemma stamp_metadata_songs e data :
  get_songs_or_empty (Pro.stamp_metadata R e data) = get_songs_or_empty data.
Proof. done. Qed.

Lemma json_document_stamp e data :
  json_document data = true →
  json_document (Pro.stamp_metadata R e data) = true.
Proof.
  unfold json_document. intros [Hs Hm]%andb_true_iff.
  rewrite stamp_metadata_songs, Hs. cbn.
  do 2 (apply json_dict_insert; [done|]).
  destruct (doc_metadata data) as [m|]; [done|]. apply _get_metadata_json.
Qed.

Lemma json_document_songs data :
  forallb json_dict (get_songs_or_empty data) = false →
  json_document data = false.
Proof. unfold json_document. by intros ->. Qed.

(** A write returns when every step went through, and then the backing
    file holds the stamped document. *)
Lemma _write_data_Ok e f data f' u :
  Pro._write_data R e f data = (f', Ok u) →
  committable e = true
  ∧ forallb json_dict (get_songs_or_empty data) = true
  ∧ db f' = Some (FDoc (Pro.stamp_metadata R e data)).
Proof.
  unfold Pro._write_data, committable.
  destruct (json_document _) eqn:Hj;
    destruct (can_open_w e), (can_dump e), (can_replace e); cbn; try done.
  intros [= <-]. split_and!; [done| |done].
  destruct (forallb _ _) eqn:Hs; [done|].
  by rewrite json_document_songs in Hj.
Qed.

(** A write raises [Pro.DatabaseWriteError] when a step fails, and then the
    backing file is as it was. *)
Lemma _write_data_Err e f data f' x :
  Pro._write_data R e f data = (f', Err x) →
  x = Pro.DatabaseWriteError ∧ db f' = db f.
Proof.
  unfold Pro._write_data.
  destruct (json_document _), (can_open_w e), (can_dump e), (can_replace e);
    cbn; try done; intros [= <- <-]; by rewrite ?_create_backup_db.
Qed.

Lemma _write_data_committable e f data :
  committable e = true → json_document data = true →
  ∃ f', Pro._write_data R e f data = (f', Ok ()).
Proof.
  unfold Pro._write_data, committable. intros He Hj.
  rewrite (json_document_stamp e data Hj).
  destruct (can_open_w e), (can_dump e), (can_replace e); cbn; try done.
  eauto.
Qed.

Lemma _write_data_uncommittable e f data :
  committable e = false →
  ∃ f', Pro._write_data R e f data = (f', Err Pro.DatabaseWriteError)
        ∧ db f' = db f.
Proof.
  unfold Pro._write_data, committable.
  destruct (json_document _), (can_open_w e), (can_dump e), (can_replace e);
    cbn; try done;
    eexists; (split; [reflexivity|]); by rewrite ?_create_backup_db.
Qed.

(** A document with a song that [json.dump] does not encode is not
    written, whatever the files allow. *)
Lemma _write_data_unencodable e f data :
  forallb json_dict (get_songs_or_empty data) = false →
  ∃ f', Pro._write_data R e f data = (f', Err Pro.DatabaseWriteError)
        ∧ db f' = db f.
Proof.
  intros Hs. unfold Pro._write_data.
  rewrite (json_document_songs (Pro.stamp_metadata R e data)) by done.
  destruct (can_open_w e); cbn;
    eexists; (split; [reflexivity|]); by rewrite ?_create_backup_db.
Qed.

Lemma stored_songs_db f f' : db f' = db f → stored_songs f' = stored_songs f.
Proof. unfold stored_songs. by intros ->. Qed.

Lemma stored_songs_stamped e f data :
  db f = Some (FDoc (Pro.stamp_metadata R e data)) →
  stored_songs f = get_songs_or_empty data.
Proof. unfold stored_songs. by intros ->. Qed.

(** A read that returns gives the stored records, and leaves a backing
    file that holds them. *)
Lemma _read_data_Ok e f f1 data :
  Pro._read_data R e f = (f1, Ok data) →
  doc_songs data = Some (stored_songs f)
  ∧ stored_songs f1 = stored_songs f
  ∧ (is_Some (db f) → f1 = f).
Proof.
  unfold Pro._read_data, stored_songs. destruct (db f) as [c|] eqn:Hdb.
  - destruct (can_read e); [|done]. destruct c as [d|]; [|done].
    intros [= <- <-]. by rewrite Hdb.
  - unfold Pro._initialize_database. rewrite Hdb.
    destruct (Pro._write_data R e f _) as [f2 [u|x]] eqn:Hw; [|done].
    intros [= <- <-]. apply _write_data_Ok in Hw as (_ & _ & ->).
    split_and!; [done..|]. by intros [? [=]].
Qed.

Lemma _read_data_Err e f f1 x :
  Pro._read_data R e f = (f1, Err x) →
  x = Pro.DatabaseReadError ∧ db f1 = db f.
Proof.
  unfold Pro._read_data. destruct (db f) as [c|] eqn:Hdb.
  - destruct (can_read e); [destruct c as [d|]|]; by intros [= <- <-].
  - unfold Pro._initialize_database. rewrite Hdb.
    destruct (Pro._write_data R e f _) as [f2 [u|y]] eqn:Hw; [done|].
    intros [= <- <-]. by apply _write_data_Err in Hw as (_ & ->).
Qed.

Lemma _read_data_existing e f d :
  db f = Some (FDoc d) → can_read e = true →
  ∃ data, Pro._read_data R e f = (f, Ok data)
          ∧ doc_songs data = Some (stored_songs f).
Proof.
  intros Hdb Hr. unfold Pro._read_data, stored_songs. rewrite Hdb, Hr. eauto.
Qed.

Lemma _read_data_existing_eq e f d :
  db f = Some (FDoc d) → can_read e = true →
  Pro._read_data R e f
  = (f, Ok (Document (Some (stored_songs f))
              (Some (default (Pro._get_metadata R e) (doc_metadata d))))).
Proof.
  intros Hdb Hr. unfold Pro._read_data, stored_songs. by rewrite Hdb, Hr.
Qed.

(** A listing that returns is the valid records of the backing file. *)
Lemma get_all_songs_Ok e f f1 l :
  Pro.get_all_songs R e f = (f1, Ok l) →
  l = Pro.valid_songs R (stored_songs f).
Proof.
  unfold Pro.get_all_songs.
  destruct (Pro._read_data R e f) as [f2 [data|x]] eqn:Hr; [|done].
  intros [= <- <-]. apply _read_data_Ok in Hr as (Hs & _).
  by rewrite (get_songs_or_empty_Some _ _ Hs).
Qed.

Lemma get_all_songs_existing e f d :
  db f = Some (FDoc d) → can_read e = true →
  Pro.get_all_songs R e f = (f, Ok (Pro.valid_songs R (stored_songs f))).
Proof.
  intros Hdb Hr. unfold Pro.get_all_songs.
  destruct (_read_data_existing e f d Hdb Hr) as (data & -> & Hs).
  by rewrite (get_songs_or_empty_Some _ _ Hs).
Qed.

End Persistence.

(** ** Identifiers *)

Lemma foldl_max_ge z l :
  z ≤ foldl Z.max z l ∧ Forall (λ x, x ≤ foldl Z.max z l) l.
Proof.
  revert z. induction l as [|x l IH]; intros z; cbn; [by split|].
  destruct (IH (Z.max z x)) as [Hz Hl]. split; [lia|].
  constructor; [lia | done].
Qed.

(** Every element is at most [max(l, default=0)]. *)
Lemma max_default0_ge l : Forall (λ x, x ≤ max_default0 l) l.
Proof.
  destruct l as [|z l]; cbn; [done|].
  destruct (foldl_max_ge z l). by constructor.
Qed.

Lemma Minimal_new_id songs :
  Minimal.new_id songs = max_default0 (Minimal.existing_ids songs) + 1.
Proof. unfold Minimal.new_id. by destruct (Minimal.existing_ids songs). Qed.

Section Create.
Variable R : Pro.runtime.

Lemma song_dict_lookup e n sc :
  Pro.song_dict e n sc !! "titulo" = Some (VStr (Pro.sc_titulo sc))
  ∧ Pro.song_dict e n sc !! "artista" = Some (VStr (Pro.sc_artista sc))
  ∧ Pro.song_dict e n sc !! "album"
    = Some (Pro.of_option VStr (Pro.sc_album sc))
  ∧ Pro.song_dict e n sc !! "año" = Some (Pro.of_option VInt (Pro.sc_año sc))
  ∧ Pro.song_dict e n sc !! "id" = Some (VInt n)
  ∧ Pro.song_dict e n sc !! "uuid" = Some (VStr (uuid4 e))
  ∧ Pro.song_dict e n sc !! "created_at" = Some (isoformat (now e))
  ∧ Pro.song_dict e n sc !! "updated_at" = Some (isoformat (now e)).
Proof. by split_and!. Qed.

Lemma create_song_id e n sc song :
  Pro.Song_validate R (Pro.song_dict e n sc) = Ok song → Pro.song_id song = n.
Proof.
  intros (al & y & _ & _ & _ & _ & _ & _ & Hid & _)%Song_validate_Ok.
  destruct (song_dict_lookup e n sc) as (_ & _ & _ & _ & Hl & _).
  rewrite Hl in Hid. by injection Hid.
Qed.

(** No create returns a song: the records it hands to [_write_data] end
    with [song.dict()], which [json.dump] does not encode.  The stored
    records are those there were. *)
Lemma create_song_raises e f sc :
  ∃ f' x, Pro.create_song R e f sc = (f', Err x)
          ∧ stored_songs f' = stored_songs f.
Proof.
  unfold Pro.create_song.
  destruct (Pro._read_data R e f) as [f1 [data|x]] eqn:Hr.
  - apply _read_data_Ok in Hr as (_ & Hs1 & _).
    destruct (Pro.new_id _) as [n|]; [|by eauto].
    destruct (Pro.Song_validate R _) as [song|]; [|by eauto].
    edestruct (_write_data_unencodable R e f1) as (f2 & -> & Hf2).
    { apply forallb_json_app, json_dict_Song_dict. }
    do 2 eexists. split; [done|]. by rewrite (stored_songs_db _ _ Hf2).
  - apply _read_data_Err in Hr as (_ & Hf1).
    do 2 eexists. split; [done|]. by apply stored_songs_db.
Qed.

(** On a store that is read, the error is [DatabaseWriteError] and the
    backing file is as it was. *)
Lemma create_song_existing e f d sc :
  db f = Some (FDoc d) → can_read e = true →
  ∃ f', Pro.create_song R e f sc = (f', Err Pro.DatabaseWriteError)
        ∧ db f' = db f.
Proof.
  intros Hdb Hr. unfold Pro.create_song.
  destruct (_read_data_existing R e f d Hdb Hr) as (data & -> & Hs).
  destruct (Pro.new_id _) as [n|]; [|by eauto].
  destruct (Pro.Song_validate R _) as [song|]; [|by eauto].
  edestruct (_write_data_unencodable R e f) as (f2 & -> & Hf2); [|by eauto].
  apply forallb_json_app, json_dict_Song_dict.
Qed.

End Create.

(** ** The minimal variant reads and writes *)

Lemma Minimal_read_data_existing e f d :
  db f = Some (FDoc d) → can_read e = true →
  Minimal.read_data e f = (f, stored_songs f).
Proof.
  intros Hdb Hr. unfold Minimal.read_data, Minimal.ensure_db_exists, stored_songs.
  rewrite Hdb. cbn. by rewrite Hdb, Hr.
Qed.

Lemma Minimal_write_data_written e f data :
  can_open_w e = true → can_dump e = true →
  db (Minimal.write_data e f data) = Some (FDoc data).
Proof. intros Ho Hd. unfold Minimal.write_data. by rewrite Ho, Hd. Qed.

(** When the file cannot be opened for writing, [write_data] changes
    nothing and tells nobody. *)
Lemma Minimal_write_data_refused e f data :
  can_open_w e = false → Minimal.write_data e f data = f.
Proof. intros Ho. unfold Minimal.write_data. by rewrite Ho. Qed.

Lemma Minimal_get_all_songs_existing e f d :
  db f = Some (FDoc d) → can_read e = true →
  Minimal.get_all_songs e f
  = (f, Minimal.Response 200 (Minimal.SongsData (stored_songs f))).
Proof.
  intros Hdb Hr. unfold Minimal.get_all_songs.
  by rewrite (Minimal_read_data_existing e f d).
Qed.

(** ** Records with a given id *)

Lemma filter_unmatched id (l : list pydict) :
  existsb (id_matches id) l = false →
  filter (λ song, id_matches id song = false) l = l.
Proof.
  induction l as [|x l IH]; cbn [existsb length]; [done|].
  intros [Hx Hl]%orb_false_iff. rewrite filter_cons_True by done.
  by rewrite IH.
Qed.

Lemma filter_length_unmatched id (l : list pydict) :
  length (filter (λ song, id_matches id song = false) l) = length l →
  existsb (id_matches id) l = false.
Proof.
  induction l as [|x l IH]; cbn [existsb length]; [done|].
  destruct (id_matches id x) eqn:Hx; cbn [orb].
  - rewrite filter_cons_False by (by rewrite Hx).
    pose proof (length_filter (λ song, id_matches id song = false) l). lia.
  - rewrite filter_cons_True by done. cbn [length]. intros [= Hl]. by apply IH.
Qed.

(** No record of the filtered list has the id. *)
Lemma filter_none_matches id (l : list pydict) :
  existsb (id_matches id) (filter (λ song, id_matches id song = false) l)
  = false.
Proof.
  induction l as [|x l IH]; cbn [existsb length]; [done|].
  destruct (id_matches id x) eqn:Hx.
  - by rewrite filter_cons_False by (by rewrite Hx).
  - rewrite filter_cons_True by done. cbn [existsb]. by rewrite Hx.
Qed.

(** The loop of [update_song] stops at the first record with the id. *)
Lemma find_index_first id (l : list pydict) i current_song :
  Pro.find_index id l = Some (i, current_song) →
  l !! i = Some current_song
  ∧ id_matches id current_song = true
  ∧ ∀ j other, l !! j = Some other → (j < i)%nat → id_matches id other = false.
Proof.
  intros (Hi & Hm & Hbefore)%list_find_Some. split_and!; [done..|].
  intros j other Hj Hlt. specialize (Hbefore j other Hj Hlt).
  by destruct (id_matches id other).
Qed.

Lemma find_index_None id (l : list pydict) :
  Pro.find_index id l = None ↔ existsb (id_matches id) l = false.
Proof.
  unfold Pro.find_index. rewrite list_find_None. induction l as [|x l IH]; cbn.
  - split; [done | constructor].
  - rewrite Forall_cons, orb_false_iff, IH.
    by destruct (id_matches id x); intuition.
Qed.

(** ** Updating and deleting, professional variant *)

Section Mutations.
Variable R : Pro.runtime.

(** No update returns a song: the record it puts in the place of the old
    one is [updated_song.dict()], which [json.dump] does not encode.  The
    stored records are those there were. *)
Lemma update_song_raises e f id su :
  ∃ f' x, Pro.update_song R e f id su = (f', Err x)
          ∧ stored_songs f' = stored_songs f.
Proof.
  unfold Pro.update_song.
  destruct (Pro._read_data R e f) as [f1 [data|x]] eqn:Hr.
  - apply _read_data_Ok in Hr as (_ & Hs1 & _).
    destruct (Pro.find_index id _) as [[i cur]|] eqn:Hfind; [|by eauto].
    destruct (Pro.Song_validate R _) as [song|]; [|by eauto].
    edestruct (_write_data_unencodable R e f1) as (f2 & -> & Hf2).
    { apply forallb_json_insert; [|apply json_dict_Song_dict].
      apply find_index_first in Hfind as (Hi & _). by eapply lookup_lt_Some. }
    do 2 eexists. split; [done|]. by rewrite (stored_songs_db _ _ Hf2).
  - apply _read_data_Err in Hr as (_ & Hf1).
    do 2 eexists. split; [done|]. by apply stored_songs_db.
Qed.

(** On a store that is read and has a record with the id, the error is
    [DatabaseWriteError] and the backing file is as it was. *)
Lemma update_song_existing e f d id su :
  db f = Some (FDoc d) → can_read e = true →
  existsb (id_matches id) (stored_songs f) = true →
  ∃ f', Pro.update_song R e f id su = (f', Err Pro.DatabaseWriteError)
        ∧ db f' = db f.
Proof.
  intros Hdb Hr Hex. unfold Pro.update_song.
  destruct (_read_data_existing R e f d Hdb Hr) as (data & -> & Hs).
  rewrite !(get_songs_or_empty_Some _ _ Hs).
  destruct (Pro.find_index id _) as [[i cur]|] eqn:Hfind.
  - destruct (Pro.Song_validate R _) as [song|]; [|by eauto].
    edestruct (_write_data_unencodable R e f) as (f2 & -> & Hf2); [|by eauto].
    apply forallb_json_insert; [|apply json_dict_Song_dict].
    apply find_index_first in Hfind as (Hi & _). by eapply lookup_lt_Some.
  - apply find_index_None in Hfind. congruence.
Qed.

(** An update of an id that no stored record has raises
    [SongNotFoundError], and the files are as they were. *)
Lemma update_song_unmatched e f d id su :
  db f = Some (FDoc d) → can_read e = true →
  existsb (id_matches id) (stored_songs f) = false →
  Pro.update_song R e f id su = (f, Err Pro.SongNotFoundError).
Proof.
  intros Hdb Hr Hex. unfold Pro.update_song.
  destruct (_read_data_existing R e f d Hdb Hr) as (data & -> & Hs).
  rewrite !(get_songs_or_empty_Some _ _ Hs).
  apply find_index_None in Hex. by rewrite Hex.
Qed.

(** What a delete that returns [True] has done. *)
Lemma delete_song_Ok_true e f id f' :
  Pro.delete_song R e f id = (f', Ok true) →
  committable e = true
  ∧ stored_songs f'
    = filter (λ song, id_matches id song = false) (stored_songs f)
  ∧ existsb (id_matches id) (stored_songs f) = true
  ∧ ∃ d', db f' = Some (FDoc d').
Proof.
  unfold Pro.delete_song.
  destruct (Pro._read_data R e f) as [f1 [data|x]] eqn:Hr; [|done].
  apply _read_data_Ok in Hr as (Hs & Hs1 & _).
  rewrite !(get_songs_or_empty_Some _ _ Hs).
  case_bool_decide as Hlen; [done|].
  destruct (Pro._write_data R e f1 _) as [f2 [u|x]] eqn:Hw; [|done].
  intros [= <-]. apply _write_data_Ok in Hw as (Hc & _ & Hdb).
  split_and!; [done| | |].
  - by rewrite (stored_songs_stamped R e _ _ Hdb).
  - destruct (existsb _ _) eqn:Hex; [done|].
    by rewrite filter_unmatched in Hlen.
  - by rewrite Hdb; eauto.
Qed.

(** A delete that returns [False] found no record with the id, and wrote
    nothing to an existing file. *)
Lemma delete_song_Ok_false e f id f' :
  Pro.delete_song R e f id = (f', Ok false) →
  existsb (id_matches id) (stored_songs f) = false
  ∧ (is_Some (db f) → f' = f).
Proof.
  unfold Pro.delete_song.
  destruct (Pro._read_data R e f) as [f1 [data|x]] eqn:Hr; [|done].
  apply _read_data_Ok in Hr as (Hs & Hs1 & Hf).
  rewrite !(get_songs_or_empty_Some _ _ Hs).
  case_bool_decide as Hlen.
  - intros [= <-]. split; [|done]. by apply filter_length_unmatched.
  - by destruct (Pro._write_data R e f1 _) as [f2 [u|x]].
Qed.


(** When a step of the write fails, a delete of a record of a readable
    store raises [DatabaseWriteError], and the backing file is as it was. *)
Lemma delete_song_uncommittable e f d id :
  db f = Some (FDoc d) → can_read e = true → committable e = false →
  existsb (id_matches id) (stored_songs f) = true →
  ∃ f', Pro.delete_song R e f id = (f', Err Pro.DatabaseWriteError)
        ∧ db f' = db f.
Proof.
  intros Hdb Hr Hc Hex. unfold Pro.delete_song.
  destruct (_read_data_existing R e f d Hdb Hr) as (data & -> & Hs).
  rewrite !(get_songs_or_empty_Some _ _ Hs).
  case_bool_decide as Hlen.
  - apply filter_length_unmatched in Hlen. congruence.
  - edestruct (_write_data_uncommittable R e f) as (f' & -> & Hf'); eauto.
Qed.

(** When every step of the write goes through, a delete of a record of a
    readable store of JSON values returns [True]. *)
Lemma delete_song_matched e f d id :
  db f = Some (FDoc d) → json_document d = true →
  can_read e = true → committable e = true →
  existsb (id_matches id) (stored_songs f) = true →
  ∃ f', Pro.delete_song R e f id = (f', Ok true).
Proof.
  intros Hdb Hj Hr Hc Hex. unfold Pro.delete_song.
  rewrite (_read_data_existing_eq R e f d Hdb Hr).
  rewrite !(get_songs_or_empty_Some _ (stored_songs f)) by done.
  case_bool_decide as Hlen.
  - apply filter_length_unmatched in Hlen. congruence.
  - apply andb_true_iff in Hj as [Hsongs Hmeta].
    edestruct (_write_data_committable R e f) as [f' ->]; [done| |by eauto].
    unfold json_document.
    rewrite (get_songs_or_empty_Some _ (filter (λ song, id_matches id song = false)
                                          (stored_songs f))) by done.
    rewrite forallb_json_filter
      by (unfold stored_songs; by rewrite Hdb).
    cbn. destruct (doc_metadata d) as [m|]; [done|]. apply _get_metadata_json.
Qed.

End Mutations.

(** ** Writes that cannot be committed *)

(** C2, as the code has it.  Professional variant: [_write_data] returns
    only when every step went through, and the backing file then holds the
    document it was given, stamped; when it raises, it raises
    [DatabaseWriteError] and the backing file is as it was, and it raises
    whenever a step fails.  A delete returns [True] only after such a write,
    the backing file then holding the records that are left; and when a step
    of the write fails on a readable store, a create, an update or a delete
    of a record raises [DatabaseWriteError] and the backing file is as it
    was.  Minimal variant: [write_data] raises nothing, and the handlers
    answer 201 or 200 with the files unchanged when the file could not be
    opened for writing. *)
Theorem uncommitted_write_surfaces :
  (∀ R e f,
     (∀ data f' u,
        Pro._write_data R e f data = (f', Ok u) →
        committable e = true
        ∧ db f' = Some (FDoc (Pro.stamp_metadata R e data)))
     ∧ (∀ data f' x,
          Pro._write_data R e f data = (f', Err x) →
          x = Pro.DatabaseWriteError ∧ db f' = db f)
     ∧ (∀ data, committable e = false →
          ∃ f', Pro._write_data R e f data = (f', Err Pro.DatabaseWriteError)
                ∧ db f' = db f)
     ∧ (∀ id f',
          Pro.delete_song R e f id = (f', Ok true) →
          committable e = true
          ∧ stored_songs f'
            = filter (λ song, id_matches id song = false) (stored_songs f))
     ∧ (∀ d, db f = Some (FDoc d) → can_read e = true →
             committable e = false →
          (∀ sc, ∃ f',
             Pro.create_song R e f sc = (f', Err Pro.DatabaseWriteError)
             ∧ db f' = db f)
          ∧ (∀ id su, existsb (id_matches id) (stored_songs f) = true →
               ∃ f', Pro.update_song R e f id su
                     = (f', Err Pro.DatabaseWriteError)
                     ∧ db f' = db f)
          ∧ (∀ id, existsb (id_matches id) (stored_songs f) = true →
               ∃ f', Pro.delete_song R e f id
                     = (f', Err Pro.DatabaseWriteError)
                     ∧ db f' = db f)))
  ∧ (∀ e f d,
       db f = Some (FDoc d) → can_read e = true → can_open_w e = false →
       (∀ body, is_Some (body !! "titulo") → is_Some (body !! "artista") →
          ∃ new_song, Minimal.add_song e f (Some body)
                      = (f, Minimal.Response 201 (Minimal.SongData new_song)))
       ∧ (∀ id body, existsb (id_matches id) (stored_songs f) = true →
            ∃ updated, Minimal.update_song e f id (Some body)
                       = (f, Minimal.Response 200 (Minimal.SongData updated)))
       ∧ (∀ id, existsb (id_matches id) (stored_songs f) = true →
            Minimal.delete_song e f id
            = (f, Minimal.Response 200 Minimal.NoData))).
Proof.
  split.
  - intros R e f. split_and!.
    + intros data f' u Hw. by apply _write_data_Ok in Hw as (Hc & _ & Hdb).
    + intros data f' x. apply _write_data_Err.
    + intros data. apply _write_data_uncommittable.
    + intros id f' (Hc & Hs & _)%delete_song_Ok_true. done.
    + intros d Hdb Hr Hc. split_and!.
      * intros sc. by eapply create_song_existing.
      * intros id su Hex. by eapply update_song_existing.
      * intros id Hex. by eapply delete_song_uncommittable.
  - intros e f d Hdb Hr Ho. split_and!.
    + intros body [t Ht] [a Ha]. unfold Minimal.add_song.
      rewrite bool_decide_eq_false_2 by (intros ->; by rewrite lookup_empty in Ht).
      rewrite bool_decide_eq_false_2 by (rewrite Ht, Ha; by intros [|]).
      rewrite (Minimal_read_data_existing e f d Hdb Hr).
      rewrite Minimal_write_data_refused by done. eauto.
    + intros id body Hex. unfold Minimal.update_song.
      rewrite (Minimal_read_data_existing e f d Hdb Hr).
      destruct (Minimal.find_song id _) as [[i s]|] eqn:Hfind.
      * rewrite Minimal_write_data_refused by done. eauto.
      * apply find_index_None in Hfind. congruence.
    + intros id Hex. unfold Minimal.delete_song.
      rewrite (Minimal_read_data_existing e f d Hdb Hr), Hex. cbn [negb].
      by rewrite Minimal_write_data_refused.
Qed.

(** On the three sample songs: with writable files the professional delete
    is committed; on read-only files it raises, and the minimal one answers
    200 all the same. *)
Lemma uncommitted_write_surfaces_witness :
  (∃ f',
     Pro.delete_song sample_runtime rw_env sample_files 2 = (f', Ok true)
     ∧ stored_songs f'
       = [sample_song 1 "Bohemian Rhapsody" "Queen" "A Night at the Opera" 1975;
          sample_song 3 "Yesterday" "The Beatles" "Help!" 1965])
  ∧ (∃ f', Pro.delete_song sample_runtime ro_env sample_files 2
           = (f', Err Pro.DatabaseWriteError)
           ∧ db f' = db sample_files)
  ∧ Minimal.delete_song ro_env sample_files 2
    = (sample_files, Minimal.Response 200 Minimal.NoData).
Proof.
  destruct uncommitted_write_surfaces as [Hpro Hmin].
  split_and!.
  - set (f' := (Pro.delete_song sample_runtime rw_env sample_files 2).1).
    assert (Hd : Pro.delete_song sample_runtime rw_env sample_files 2
                 = (f', Ok true)) by by_evaluation.
    destruct (Hpro sample_runtime rw_env sample_files)
      as (_ & _ & _ & Hdelete & _).
    destruct (Hdelete _ _ Hd) as [_ Hs].
    exists f'. split; [done|]. rewrite Hs. by_evaluation.
  - destruct (Hpro sample_runtime ro_env sample_files)
      as (_ & _ & _ & _ & Hfail).
    destruct (Hfail (Document (Some sample_songs_data) None))
      as (_ & _ & Hdelete); [reflexivity..|].
    apply Hdelete. by_evaluation.
  - destruct (Hmin ro_env sample_files (Document (Some sample_songs_data) None))
      as (_ & _ & Hdelete); [reflexivity..|].
    apply Hdelete. by_evaluation.
Defined.

(** C2, as the claim has it, fails in the minimal variant: on files that
    cannot be written an update is answered with 200 and the updated
    record, the files are as they were, and the record read back is the
    old one. *)
Lemma update_song_reported_not_stored :
  Minimal.update_song ro_env sample_files 2
    (Some {[ "album" := VStr (pys "Greatest Hits") ]})
  = (sample_files,
     Minimal.Response 200
       (Minimal.SongData
          (<["album" := VStr (pys "Greatest Hits")]>
             (sample_song 2 "Imagine" "John Lennon" "Imagine" 1971))))
  ∧ Minimal.get_song rw_env sample_files 2
    = (sample_files,
       Minimal.Response 200
         (Minimal.SongData (sample_song 2 "Imagine" "John Lennon" "Imagine" 1971))).
Proof. split; by_evaluation. Qed.

(** ** Deleting an id that is not there *)





(** ** Metadata of a written document *)

Lemma stamp_metadata_stamped R e data :
  metadata_stamped (now e) (Pro.stamp_metadata R e data).
Proof.
  unfold metadata_stamped, Pro.stamp_metadata. eexists. split; [reflexivity|].
  split.
  - by rewrite lookup_insert_eq.
  - by rewrite lookup_insert_ne, lookup_insert_eq.
Qed.

(** C6, as the code has it.  Professional variant: after a write that
    returned, the backing file holds the songs it was given with metadata in
    which [total_records] is their number and [last_updated] the time of
    the write, whatever metadata the caller passed.  Minimal variant: a
    write that went through has put the document in the file as given, and
    sets no metadata. *)
Theorem write_stamps_metadata :
  (∀ R e f data f' u,
     Pro._write_data R e f data = (f', Ok u) →
     ∃ d, db f' = Some (FDoc d)
          ∧ doc_songs d = doc_songs data
          ∧ metadata_stamped (now e) d)
  ∧ (∀ e f data,
       can_open_w e = true → can_dump e = true →
       db (Minimal.write_data e f data) = Some (FDoc data)).
Proof.
  split.
  - intros R e f data f' u Hw. apply _write_data_Ok in Hw as (_ & _ & Hdb).
    eexists. split; [done|]. split; [done|]. apply stamp_metadata_stamped.
  - intros e f data. apply Minimal_write_data_written.
Qed.

(** A document that claims 99 records for the three sample songs. *)
Lemma write_stamps_metadata_witness :
  (∃ f' d,
     Pro._write_data sample_runtime rw_env sample_files
       (Document (Some sample_songs_data) (Some {[ "total_records" := VInt 99 ]}))
     = (f', Ok ())
     ∧ db f' = Some (FDoc d)
     ∧ doc_songs d = Some sample_songs_data
     ∧ metadata_stamped (now rw_env) d)
  ∧ db (Minimal.write_data rw_env sample_files
          (Minimal.songs_only sample_songs_data))
    = Some (FDoc (Minimal.songs_only sample_songs_data)).
Proof.
  destruct write_stamps_metadata as [Hpro Hmin]. split.
  - destruct (_write_data_committable sample_runtime rw_env sample_files
                (Document (Some sample_songs_data)
                   (Some {[ "total_records" := VInt 99 ]})))
      as [f' Hw]; [reflexivity | by_evaluation |].
    destruct (Hpro _ _ _ _ _ _ Hw) as (d & Hd & Hs & Hm).
    exists f', d. split_and!; [exact Hw | exact Hd | exact Hs | exact Hm].
  - apply Hmin; reflexivity.
Defined.

(** C6, as the claim has it, fails in the minimal variant: the document the
    handlers write has no metadata, and metadata a caller passes is stored
    as passed, 99 records for three songs. *)
Lemma write_data_leaves_metadata :
  db (Minimal.write_data rw_env sample_files
        (Minimal.songs_only sample_songs_data))
  = Some (FDoc (Document (Some sample_songs_data) None))
  ∧ db (Minimal.write_data rw_env sample_files
          (Document (Some sample_songs_data)
             (Some {[ "total_records" := VInt 99 ]})))
    = Some (FDoc (Document (Some sample_songs_data)
                    (Some {[ "total_records" := VInt 99 ]})))
  ∧ ¬ metadata_stamped (now rw_env) (Document (Some sample_songs_data) None)
  ∧ ¬ metadata_stamped (now rw_env)
        (Document (Some sample_songs_data)
           (Some {[ "total_records" := VInt 99 ]})).
Proof.
  split_and!; [by_evaluation..| |].
  - by intros (m & [=] & _).
  - intros (m & [= <-] & Htotal & _). by vm_compute in Htotal.
Qed.

(** ** The id of a created record *)

(** The professional variant reads no ["id"] from a create payload. *)
Lemma SongCreate_validate_ignores_id R payload v :
  Pro.SongCreate_validate R (<["id" := v]> payload)
  = Pro.SongCreate_validate R payload.
Proof.
  unfold Pro.SongCreate_validate. by rewrite !lookup_insert_ne.
Qed.

(** C4 fails in the minimal variant: [add_song] lets the payload overwrite
    the id it has just computed.  On the three sample songs the store's id
    is 4; a payload that carries ["id": 2] is stored and returned with the
    id 2, which another record already has. *)
Theorem add_song_takes_client_id :
  Minimal.new_id sample_songs_data = 4
  ∧ Minimal.add_song rw_env sample_files
      (Some (<["id" := VInt 2]> sample_body))
    = (files_of (sample_songs_data ++ [<["id" := VInt 2]> sample_body]),
       Minimal.Response 201
         (Minimal.SongData (<["id" := VInt 2]> sample_body))).
Proof. split; by_evaluation. Qed.

(** ** Validation of an update *)

(** An update payload with none of the four fields is refused by the
    model's root validator. *)
Lemma SongUpdate_validate_no_fields R payload :
  payload !! "titulo" = None → payload !! "artista" = None →
  payload !! "album" = None → payload !! "año" = None →
  Pro.SongUpdate_validate R payload
  = Err [("__root__", Pro.value_error_at_least_one_field)].
Proof.
  intros Ht Ha Hal Hy. unfold Pro.SongUpdate_validate.
  by rewrite Ht, Ha, Hal, Hy.
Qed.

(** C7 fails on a title of spaces: [SongUpdate] has [strip_whitespace] and
    not [no_empty_after_strip], so it accepts the payload with the title
    trimmed to the empty string; [update_song] then fails to validate the
    merged record and raises [DatabaseWriteError], with the store as it
    was.  [SongCreate] refuses the same title with a validation error. *)
Theorem blank_title_update_raises_write_error :
  Pro.SongUpdate_validate sample_runtime blank_title_payload
  = Ok (Pro.mkSongUpdate (Pro.Set_ (Some [])) Pro.Unset Pro.Unset Pro.Unset)
  ∧ Pro.update_song sample_runtime rw_env sample_files 1
      (Pro.mkSongUpdate (Pro.Set_ (Some [])) Pro.Unset Pro.Unset Pro.Unset)
    = (sample_files, Err Pro.DatabaseWriteError)
  ∧ Pro.SongCreate_validate sample_runtime
      (<["artista" := VStr (pys "Queen")]> blank_title_payload)
    = Err [("titulo", Pro.value_error_empty_after_strip)].
Proof. split_and!; by_evaluation. Qed.

(** ** Creating a song *)

(** C1 fails in the professional variant.  [create_song] computes the id
    [max(ids, default=0) + 1], 1 on an empty store and 4 on the three sample
    songs, and builds the song with it; it then appends [song.dict()],
    whose two timestamps are [datetime] objects, to the records it hands to
    [_write_data], and [json.dump] raises on them.  So no create returns a
    song, and the stored records are never one more: the create of the
    fixture's song raises [DatabaseWriteError] on the empty store and on the
    sample songs, and leaves the backing file as it was. *)
Theorem create_song_stores_nothing :
  (∀ R e f sc,
     ∃ f' x, Pro.create_song R e f sc = (f', Err x)
             ∧ stored_songs f' = stored_songs f)
  ∧ Pro.new_id [] = Some 1
  ∧ Pro.new_id sample_songs_data = Some 4
  ∧ Pro.Song_validate sample_runtime (Pro.song_dict rw_env 1 sample_create)
    = Ok (Pro.mkSong (pys "Test Song") (pys "Test Artist")
            (Some (pys "Test Album")) (Some 2023) 1 (uuid4 rw_env)
            sample_now sample_now)
  ∧ Pro.create_song sample_runtime rw_env (files_of []) sample_create
    = (Files (db (files_of [])) (db (files_of [])) (Some FInvalid),
       Err Pro.DatabaseWriteError)
  ∧ Pro.create_song sample_runtime rw_env sample_files sample_create
    = (Files (db sample_files) (db sample_files) (Some FInvalid),
       Err Pro.DatabaseWriteError).
Proof.
  split; [apply create_song_raises|]. split_and!; by_evaluation.
Qed.

(** ** Trimming of the names of a created song *)

Section CreateNames.
Variable R : Pro.runtime.








End CreateNames.




(** ** What an update changes *)

Section UpdateFrame.
Variable R : Pro.runtime.

Lemma SongUpdate_validate_Ok payload su :
  Pro.SongUpdate_validate R payload = Ok su →
  Pro.SongUpdate_name R 200 (payload !! "titulo") = Ok (Pro.su_titulo su)
  ∧ Pro.SongUpdate_name R 100 (payload !! "artista") = Ok (Pro.su_artista su)
  ∧ Pro.album_field R (payload !! "album") = Ok (Pro.su_album su)
  ∧ Pro.año_field R (payload !! "año") = Ok (Pro.su_año su).
Proof.
  unfold Pro.SongUpdate_validate. intros H.
  destruct (Pro.SongUpdate_name R 200 _) as [t|]; [|done].
  destruct (Pro.SongUpdate_name R 100 _) as [a|]; [|done].
  destruct (Pro.album_field R _) as [al|]; [|done].
  destruct (Pro.año_field R _) as [y|]; [|done].
  destruct (_ || _); [|done]. by injection H as <-.
Qed.

(** [dict(exclude_unset=True)] has the fields that were set, and no other
    key. *)
Lemma SongUpdate_dict_lookup su :
  let update_data := Pro.SongUpdate_dict_exclude_unset su in
  (Pro.su_titulo su = Pro.Unset → update_data !! "titulo" = None)
  ∧ (Pro.su_artista su = Pro.Unset → update_data !! "artista" = None)
  ∧ (Pro.su_album su = Pro.Unset → update_data !! "album" = None)
  ∧ (Pro.su_año su = Pro.Unset → update_data !! "año" = None)
  ∧ update_data !! "id" = None
  ∧ update_data !! "uuid" = None
  ∧ update_data !! "created_at" = None.
Proof.
  destruct su as [[|t] [|a] [|al] [|y]]; cbn -[lookup];
    by split_and!.
Qed.

Lemma merge_update_lookup e update_data current_song k :
  k ≠ "updated_at" → update_data !! k = None →
  Pro.merge_update e update_data current_song !! k = current_song !! k.
Proof.
  intros Hk Hu. unfold Pro.merge_update.
  by rewrite lookup_insert_ne, lookup_union_r.
Qed.

Lemma merge_update_updated_at e update_data current_song :
  Pro.merge_update e update_data current_song !! "updated_at"
  = Some (isoformat (now e)).
Proof. unfold Pro.merge_update. by rewrite lookup_insert_eq. Qed.

(** A field the payload leaves out is left unset by validation. *)
Lemma SongUpdate_name_None hi x :
  Pro.SongUpdate_name R hi None = Ok x → x = Pro.Unset.
Proof. by intros [= <-]. Qed.

Lemma album_field_None x : Pro.album_field R None = Ok x → x = Pro.Unset.
Proof. by intros [= <-]. Qed.

Lemma year_field_None x : Pro.año_field R None = Ok x → x = Pro.Unset.
Proof. by intros [= <-]. Qed.

(** The song [update_song] builds from a record that validates: the id,
    the uuid and the creation time are those of the record, the update time
    is read from the text of the time of the call, and each of the four
    fields that the payload leaves out is as it was. *)
Lemma merged_song_frame e payload su current_song song song' :
  Pro.SongUpdate_validate R payload = Ok su →
  Pro.Song_validate R current_song = Ok song →
  Pro.Song_validate R
    (Pro.merge_update e (Pro.SongUpdate_dict_exclude_unset su) current_song)
  = Ok song' →
  Pro.song_id song' = Pro.song_id song
  ∧ Pro.uuid song' = Pro.uuid song
  ∧ Pro.created_at song' = Pro.created_at song
  ∧ Pro.coerce_datetime R (isoformat (now e)) = Some (Pro.updated_at song')
  ∧ (payload !! "titulo" = None → Pro.titulo song' = Pro.titulo song)
  ∧ (payload !! "artista" = None → Pro.artista song' = Pro.artista song)
  ∧ (payload !! "album" = None → Pro.album song' = Pro.album song)
  ∧ (payload !! "año" = None → Pro.año song' = Pro.año song).
Proof.
  intros (Hpt & Hpa & Hpal & Hpy)%SongUpdate_validate_Ok Hv Hv'.
  destruct (SongUpdate_dict_lookup su)
    as (Hut & Hua & Hual & Huy & Huid & Huuid & Hucr).
  set (u := Pro.SongUpdate_dict_exclude_unset su) in *. cbn zeta in *.
  apply Song_validate_Ok in Hv as
    (al & y & Ht & Ha & Hal & Hal' & Hy & Hy' & Hi & Hu & Hc & _).
  apply Song_validate_Ok in Hv' as
    (al' & y' & Ht' & Ha' & Hal1 & Hal1' & Hy1 & Hy1' & Hi' & Hu' & Hc' & Hm').
  rewrite merge_update_updated_at in Hm'.
  rewrite merge_update_lookup in Hi', Hu', Hc' by done.
  rewrite Hi in Hi'. rewrite Hu in Hu'. rewrite Hc in Hc'.
  split_and!; try congruence.
  - unfold isoformat in *. cbn in Hm'.
    destruct (Pro.coerce_datetime R _); [congruence | done].
  - intros Hp. rewrite Hp in Hpt. apply SongUpdate_name_None in Hpt.
    rewrite merge_update_lookup in Ht' by auto. congruence.
  - intros Hp. rewrite Hp in Hpa. apply SongUpdate_name_None in Hpa.
    rewrite merge_update_lookup in Ha' by auto. congruence.
  - intros Hp. rewrite Hp in Hpal. apply album_field_None in Hpal.
    rewrite merge_update_lookup in Hal1 by auto. congruence.
  - intros Hp. rewrite Hp in Hpy. apply year_field_None in Hpy.
    rewrite merge_update_lookup in Hy1 by auto. congruence.
Qed.

(** [SongUpdate] reads its four fields and nothing else. *)
Lemma SongUpdate_validate_ignores payload k v :
  k ∉ ["titulo"; "artista"; "album"; "año"] →
  Pro.SongUpdate_validate R (<[k := v]> payload)
  = Pro.SongUpdate_validate R payload.
Proof.
  intros Hk. unfold Pro.SongUpdate_validate.
  rewrite !lookup_insert_ne; [done|..]; intros ->; apply Hk;
    repeat first [apply list_elem_of_here | apply list_elem_of_further].
Qed.

End UpdateFrame.

(** The record the minimal update builds: the payload without its ["id"],
    over the stored record. *)
Lemma Minimal_updated_lookup (body s : pydict) k :
  (delete "id" body ∪ s) !! k
  = if decide (k = "id") then s !! "id"
    else match body !! k with
         | Some v => Some v
         | None => s !! k
         end.
Proof.
  case_decide as Hk.
  - subst k. by rewrite lookup_union_r by apply lookup_delete_eq.
  - destruct (body !! k) as [v|] eqn:Hb.
    + apply lookup_union_Some_l. by rewrite lookup_delete_ne.
    + rewrite lookup_union_r; [done|]. by rewrite lookup_delete_ne.
Qed.

(** C3 fails in the professional variant.  [update_song] merges the
    payload into the first record with the id, stamps the update time and
    validates the result: for [{"album": "X"}] on the first sample song that
    is the song the claim describes, with the new album, the update time of
    the call and every other field as it was.  It then puts
    [updated_song.dict()], whose two timestamps are [datetime] objects, in
    the records it hands to [_write_data], and [json.dump] raises on them.
    So no update returns a song and none changes a stored record: the
    update raises [DatabaseWriteError], and the album in the backing file is
    the one it was. *)
Theorem update_song_stores_nothing :
  (∀ R e f id su,
     ∃ f' x, Pro.update_song R e f id su = (f', Err x)
             ∧ stored_songs f' = stored_songs f)
  ∧ Pro.SongUpdate_validate sample_runtime album_payload = Ok album_update
  ∧ Pro.Song_validate sample_runtime
      (Pro.merge_update rw_env (Pro.SongUpdate_dict_exclude_unset album_update)
         (sample_song 1 "Bohemian Rhapsody" "Queen" "A Night at the Opera" 1975))
    = Ok (Pro.mkSong (pys "Bohemian Rhapsody") (pys "Queen") (Some (pys "X"))
            (Some 1975) 1 (Pro.uuid sample_song1) sample_created sample_now)
  ∧ Pro.update_song sample_runtime rw_env sample_files 1 album_update
    = (Files (db sample_files) (db sample_files) (Some FInvalid),
       Err Pro.DatabaseWriteError)
  ∧ stored_songs sample_files !! 0%nat
    = Some (sample_song 1 "Bohemian Rhapsody" "Queen" "A Night at the Opera" 1975).
Proof.
  split; [apply update_song_raises|]. split_and!; by_evaluation.
Qed.

(** In the minimal variant an update payload that names an id, a uuid and
    a creation time leaves the id and overwrites the other two, in the
    answer and in the store. *)
Lemma update_song_overwrites_identity :
  Minimal.update_song rw_env sample_files 1 (Some identity_payload)
  = (files_of
       (<[0%nat :=
            <["uuid" := VStr (pys "forged")]>
              (<["created_at" := VStr (pys "1999-12-31T23:59:59")]>
                 (sample_song 1 "Bohemian Rhapsody" "Queen"
                    "A Night at the Opera" 1975))]> sample_songs_data),
     Minimal.Response 200
       (Minimal.SongData
          (<["uuid" := VStr (pys "forged")]>
             (<["created_at" := VStr (pys "1999-12-31T23:59:59")]>
                (sample_song 1 "Bohemian Rhapsody" "Queen"
                   "A Night at the Opera" 1975))))).
Proof. by_evaluation. Qed.

(** ** Records that share an id *)

Section Duplicates.
Variable R : Pro.runtime.

Lemma get_song_by_id_existing e f d id :
  db f = Some (FDoc d) → can_read e = true →
  Pro.get_song_by_id R e f id
  = (f, Ok (List.find (λ s, bool_decide (Pro.song_id s = id))
              (Pro.valid_songs R (stored_songs f)))).
Proof.
  intros Hdb Hr. unfold Pro.get_song_by_id.
  by rewrite (get_all_songs_existing R e f d Hdb Hr).
Qed.

(** An update of a store that is read raises, whether or not a record has
    the id, and the backing file is as it was. *)
Lemma update_song_readable e f d id su :
  db f = Some (FDoc d) → can_read e = true →
  ∃ f' x, Pro.update_song R e f id su = (f', Err x) ∧ db f' = db f.
Proof.
  intros Hdb Hr. destruct (existsb (id_matches id) (stored_songs f)) eqn:Hex.
  - destruct (update_song_existing R e f d id su Hdb Hr Hex) as (f' & ? & ?).
    by eauto.
  - rewrite (update_song_unmatched R e f d id su Hdb Hr Hex). by eauto.
Qed.

End Duplicates.

(** C10 fails for the update.  On a readable store [get_song_by_id]
    returns the first song with the id among the records that validate, and
    a delete that returns [True] has removed every record with the id.  An
    update finds the first record with the id and builds its new version,
    and then raises on the write, as every update does: it modifies no
    record, not even the first. *)
Theorem operations_on_shared_id R e f d id :
  db f = Some (FDoc d) → can_read e = true →
  Pro.get_song_by_id R e f id
  = (f, Ok (List.find (λ s, bool_decide (Pro.song_id s = id))
              (Pro.valid_songs R (stored_songs f))))
  ∧ (∀ su, ∃ f' x, Pro.update_song R e f id su = (f', Err x) ∧ db f' = db f)
  ∧ (∀ f',
       Pro.delete_song R e f id = (f', Ok true) →
       stored_songs f'
       = filter (λ song, id_matches id song = false) (stored_songs f)
       ∧ existsb (id_matches id) (stored_songs f') = false).
Proof.
  intros Hdb Hr. split_and!.
  - by apply get_song_by_id_existing with d.
  - intros su. by apply update_song_readable with d.
  - intros f' (_ & Hs & _)%delete_song_Ok_true.
    split; [done|]. rewrite Hs. apply filter_none_matches.
Qed.

(** Two records with the id 1, then one with the id 2: the lookup gives the
    first, the update raises and leaves both as they were, the delete
    removes both. *)
Lemma operations_on_shared_id_witness :
  Pro.get_song_by_id sample_runtime rw_env (files_of duplicate_songs_data) 1
  = (files_of duplicate_songs_data, Ok (Some sample_song1))
  ∧ (∃ f' x,
       Pro.update_song sample_runtime rw_env (files_of duplicate_songs_data) 1
         album_update
       = (f', Err x)
       ∧ db f' = db (files_of duplicate_songs_data))
  ∧ (∃ f',
       Pro.delete_song sample_runtime rw_env (files_of duplicate_songs_data) 1
       = (f', Ok true)
       ∧ stored_songs f'
         = [sample_song 2 "Yesterday" "The Beatles" "Help!" 1965]).
Proof.
  destruct (operations_on_shared_id sample_runtime rw_env
              (files_of duplicate_songs_data)
              (Document (Some duplicate_songs_data) None) 1)
    as (Hget & Hupdate & Hdelete); [reflexivity..|].
  split_and!.
  - rewrite Hget. by_evaluation.
  - exact (Hupdate album_update).
  - set (f' := (Pro.delete_song sample_runtime rw_env
                  (files_of duplicate_songs_data) 1).1).
    assert (Hd : Pro.delete_song sample_runtime rw_env
                   (files_of duplicate_songs_data) 1 = (f', Ok true))
      by by_evaluation.
    destruct (Hdelete _ Hd) as [Hs _].
    exists f'. split; [exact Hd|]. rewrite Hs. by_evaluation.
Defined.

(** The update of the shared id, evaluated: it raises
    [DatabaseWriteError]; the backup is a copy of the backing file, the
    temporary file holds what was dumped before the failure, and the backing
    file has the two records with the id 1 as they were. *)
Lemma update_of_shared_id_raises :
  Pro.update_song sample_runtime rw_env (files_of duplicate_songs_data) 1
    album_update
  = (Files (db (files_of duplicate_songs_data))
       (db (files_of duplicate_songs_data)) (Some FInvalid),
     Err Pro.DatabaseWriteError).
Proof. by_evaluation. Qed.

(** The listing of the three sample songs, one per page. *)
Lemma get_songs_pagination_witness :
  (∃ sl, Pro.get_songs sample_runtime rw_env sample_files (Some 1) (Some 1)
         = (sample_files, Ok sl)
         ∧ length (Pro.songs sl) = 1%nat
         ∧ Pro.has_next sl = true ∧ Pro.has_prev sl = false)
  ∧ (∃ sl, Pro.get_songs sample_runtime rw_env sample_files (Some 4) (Some 1)
           = (sample_files, Ok sl)
           ∧ Pro.songs sl = [] ∧ Pro.total sl = 3)
  ∧ (∃ sl, Pro.get_songs sample_runtime rw_env sample_files None (Some 1000)
           = (sample_files, Ok sl)
           ∧ Pro.per_page sl = 100 ∧ Pro.page sl = 1).
Proof.
  assert (Hall : Pro.get_all_songs sample_runtime rw_env sample_files
                 = (sample_files,
                    Ok (Pro.valid_songs sample_runtime sample_songs_data)))
    by by_evaluation.
  assert (Hlen : length (Pro.valid_songs sample_runtime sample_songs_data)
                 = 3%nat) by by_evaluation.
  split_and!.
  - destruct (get_songs_pagination sample_runtime rw_env sample_files
                (Some 1) (Some 1) _ _ Hall)
      as (sl & Hsl & _ & _ & _ & _ & _ & _ & _ & _ & _ & Hthree).
    destruct (Hthree Hlen eq_refl) as [Hfirst _].
    exists sl. split; [done|]. by apply Hfirst.
  - destruct (get_songs_pagination sample_runtime rw_env sample_files
                (Some 4) (Some 1) _ _ Hall)
      as (sl & Hsl & _ & _ & _ & _ & Htotal & _ & _ & _ & _ & Hthree).
    destruct (Hthree Hlen eq_refl) as [_ Hfourth].
    exists sl. split; [done|]. split; [by apply Hfourth|].
    by rewrite Htotal, Hlen.
  - destruct (get_songs_pagination sample_runtime rw_env sample_files
                None (Some 1000) _ _ Hall)
      as (sl & Hsl & Hpage & Hper & _).
    exists sl. split; [exact Hsl|]. rewrite Hpage, Hper. split; reflexivity.
Defined.

(** ** A title of spaces in an update, in general *)

Section BlankTitle.
Variable R : Pro.runtime.

(** [SongUpdate] accepts a title within the bounds that is all whitespace,
    as the empty string. *)
Lemma SongUpdate_name_blank hi s :
  (1 ≤ length s ≤ hi)%nat → strip s = [] →
  Pro.SongUpdate_name R hi (Some (VStr s)) = Ok (Pro.Set_ (Some [])).
Proof.
  intros Hlen Hs. cbn -[Pro.constr_length_validator].
  rewrite constr_length_validator_intro by done.
  unfold Pro.strip_whitespace. by rewrite Hs.
Qed.

Lemma SongUpdate_dict_titulo su v :
  Pro.su_titulo su = Pro.Set_ v →
  Pro.SongUpdate_dict_exclude_unset su !! "titulo"
  = Some (Pro.of_option VStr v).
Proof.
  destruct su as [t [|a] [|al] [|y]]; cbn -[lookup insert]; intros ->;
    unfold Pro.SongUpdate_dict_exclude_unset; cbn -[lookup insert];
    by rewrite lookup_insert_eq.
Qed.

(** With such a title, the update of a record that exists raises
    [DatabaseWriteError] and leaves the files as they were. *)
Lemma update_song_blank_title e f d id su :
  db f = Some (FDoc d) → can_read e = true →
  existsb (id_matches id) (stored_songs f) = true →
  Pro.su_titulo su = Pro.Set_ (Some []) →
  Pro.update_song R e f id su = (f, Err Pro.DatabaseWriteError).
Proof.
  intros Hdb Hr Hex Hsu. unfold Pro.update_song.
  destruct (_read_data_existing R e f d Hdb Hr) as (data & -> & Hs).
  rewrite !(get_songs_or_empty_Some _ _ Hs).
  destruct (Pro.find_index id _) as [[i cur]|] eqn:Hfind.
  - destruct (Pro.Song_validate R _) as [song|] eqn:Hv; [|done].
    apply Song_validate_Ok in Hv as (al & y & Ht & _).
    unfold Pro.merge_update in Ht.
    rewrite lookup_insert_ne in Ht by done.
    erewrite lookup_union_Some_l in Ht
      by (by apply SongUpdate_dict_titulo).
    done.
  - apply find_index_None in Hfind. congruence.
Qed.

End BlankTitle.
